(** * unfair: the per-packet TCP/IPv4 header inspector [trace_tcp_rcv]

    A shallow embedding of the BPF program found in
    [src/runtime/unfair_runtime.c] and [src/unfair/runtime/unfair_runtime.c],
    followed by the properties of the specification that concern it.

    Fixed-width C integers are integers of [Z] with the wrap-around written
    out ([u8], [u16], [u32], [u64]).  Kernel memory is a total map from
    addresses to bytes and pointers are addresses.  Two things are fixed when
    the program is built and are parameters here: the byte order in which the
    host reads multi-byte objects, and the arm of
    [#if __BYTE_ORDER == __LITTLE_ENDIAN ... #elif __BYTE_ORDER ==
    __BIG_ENDIAN ... #endif] that the preprocessor keeps.  The second does
    not follow from the first: it depends on which of the three macros the
    included headers define.  The perf output table [pkts] is threaded
    through the handler as the list of records submitted so far. *)

From Stdlib Require Import ZArith List Bool Lia.
Import ListNotations.
Local Open Scope Z_scope.

(** ** Fixed-width unsigned integers *)

Definition u8  (x : Z) : Z := x mod 2 ^ 8.
Definition u16 (x : Z) : Z := x mod 2 ^ 16.
Definition u32 (x : Z) : Z := x mod 2 ^ 32.
Definition u64 (x : Z) : Z := x mod 2 ^ 64.

(** The byte order in which the host reads a multi-byte object. *)
Inductive byte_order : Set :=
| LITTLE_ENDIAN
| BIG_ENDIAN.

(** The arm of the handler's two [#if] blocks that is compiled: the one
    under [#if __BYTE_ORDER == __LITTLE_ENDIAN] or the one under
    [#elif __BYTE_ORDER == __BIG_ENDIAN]. A build in which neither comparison
    holds compiles neither and is not modelled (in src/runtime the handler
    would then use [ihl] and [iv] without having set them). *)
Inductive cpp_arm : Set :=
| IF_ARM
| ELIF_ARM.

(** The three macros the [#if] compares, as the preprocessor finds them:
    [None] for a name that is not defined. *)
Record cpp_macros : Set := {
  def_BYTE_ORDER : option Z;
  def_LITTLE_ENDIAN : option Z;
  def_BIG_ENDIAN : option Z
}.

(** In an [#if], a name that is not a macro evaluates to 0. *)
Definition cpp_value (d : option Z) : Z :=
  match d with Some v => v | None => 0 end.

(** The arm the preprocessor keeps, if any. *)
Definition byte_order_arm (d : cpp_macros) : option cpp_arm :=
  if cpp_value (def_BYTE_ORDER d) =? cpp_value (def_LITTLE_ENDIAN d)
  then Some IF_ARM
  else if cpp_value (def_BYTE_ORDER d) =? cpp_value (def_BIG_ENDIAN d)
  then Some ELIF_ARM
  else None.

(** ** The kernel interface the program is compiled against

    Constants, structure layouts and helpers of the Linux headers included by
    the program ([linux/ip.h], [linux/tcp.h], [linux/skbuff.h], [net/sock.h]).
    Only what [trace_tcp_rcv] touches is modelled. *)
Module Kernel.

Definition AF_INET : Z := 2.
Definition ETH_P_IP : Z := 0x0800.
Definition IPPROTO_TCP : Z := 6.

(** What the kernel's byte-order headers define on a host of byte order
    [bo] ([linux/byteorder/little_endian.h], [.../big_endian.h]): the one
    macro of the host's own order, and never [__BYTE_ORDER]. *)
Definition byteorder_macros (bo : byte_order) : cpp_macros :=
  match bo with
  | LITTLE_ENDIAN =>
      {| def_BYTE_ORDER := None; def_LITTLE_ENDIAN := Some 1234;
         def_BIG_ENDIAN := None |}
  | BIG_ENDIAN =>
      {| def_BYTE_ORDER := None; def_LITTLE_ENDIAN := None;
         def_BIG_ENDIAN := Some 4321 |}
  end.

(** What a C library's [endian.h] defines on a host of byte order [bo]: both
    orders, and [__BYTE_ORDER] as the host's. *)
Definition endian_h_macros (bo : byte_order) : cpp_macros :=
  {| def_BYTE_ORDER :=
       Some (match bo with LITTLE_ENDIAN => 1234 | BIG_ENDIAN => 4321 end);
     def_LITTLE_ENDIAN := Some 1234;
     def_BIG_ENDIAN := Some 4321 |}.

(** Kernel memory: the byte stored at each address. *)
Definition kmem : Type := Z -> Z.

(** A pointer [p] of element size [size] advanced by [n] elements, which is
    what the C expression [p + n] denotes. *)
Definition ptr_add (size p n : Z) : Z := p + n * size.

Definition load_u8 (m : kmem) (a : Z) : Z := u8 (m a).

(** A two-byte object read by a host of byte order [bo]. *)
Definition load_u16 (bo : byte_order) (m : kmem) (a : Z) : Z :=
  match bo with
  | LITTLE_ENDIAN => load_u8 m a + 2 ^ 8 * load_u8 m (a + 1)
  | BIG_ENDIAN    => 2 ^ 8 * load_u8 m a + load_u8 m (a + 1)
  end.

(** A four-byte object read by a host of byte order [bo]. *)
Definition load_u32 (bo : byte_order) (m : kmem) (a : Z) : Z :=
  match bo with
  | LITTLE_ENDIAN =>
      load_u8 m a + 2 ^ 8 * load_u8 m (a + 1)
      + 2 ^ 16 * load_u8 m (a + 2) + 2 ^ 24 * load_u8 m (a + 3)
  | BIG_ENDIAN =>
      2 ^ 24 * load_u8 m a + 2 ^ 16 * load_u8 m (a + 1)
      + 2 ^ 8 * load_u8 m (a + 2) + load_u8 m (a + 3)
  end.

(** [bpf_probe_read(&dst, 1, src)] for a one-byte destination. *)
Definition bpf_probe_read_u8 (m : kmem) (src : Z) : Z := load_u8 m src.

(** [___constant_swab16]. *)
Definition swab16 (x : Z) : Z :=
  u16 (Z.lor (Z.shiftl (Z.land x 0x00ff) 8) (Z.shiftr (Z.land x 0xff00) 8)).

(** [___constant_swab32]. *)
Definition swab32 (x : Z) : Z :=
  u32 (Z.lor (Z.lor (Z.shiftl (Z.land x 0x000000ff) 24)
                    (Z.shiftl (Z.land x 0x0000ff00) 8))
             (Z.lor (Z.shiftr (Z.land x 0x00ff0000) 8)
                    (Z.shiftr (Z.land x 0xff000000) 24))).

Definition htons (bo : byte_order) (x : Z) : Z :=
  match bo with LITTLE_ENDIAN => swab16 x | BIG_ENDIAN => x end.

Definition ntohs (bo : byte_order) (x : Z) : Z :=
  match bo with LITTLE_ENDIAN => swab16 x | BIG_ENDIAN => x end.

Definition ntohl (bo : byte_order) (x : Z) : Z :=
  match bo with LITTLE_ENDIAN => swab32 x | BIG_ENDIAN => x end.

(** [struct iphdr]: byte offsets and sizes of the members. The first byte
    holds the two bit-fields [ihl] and [version]. *)
Module iphdr.
Definition off_tos : Z := 1.
Definition off_tot_len : Z := 2.
Definition off_protocol : Z := 9.
Definition off_saddr : Z := 12.
Definition off_daddr : Z := 16.
Definition sizeof_tos : Z := 1.
End iphdr.

(** [struct tcphdr]: byte offsets and sizes of the members. The byte after
    [ack_seq] holds the bit-fields [res1] and [doff]. *)
Module tcphdr.
Definition off_source : Z := 0.
Definition off_dest : Z := 2.
Definition off_seq : Z := 4.
Definition off_ack_seq : Z := 8.
Definition sizeof_ack_seq : Z := 4.
End tcphdr.

(** [struct tcp_options_received], the members read by the program. *)
Record tcp_options_received : Set := {
  rcv_tsval : Z;
  rcv_tsecr : Z
}.

(** [struct sock] seen through [tcp_sk]: the address family of
    [__sk_common] and the members of the enclosing [struct tcp_sock]. *)
Record sock : Set := {
  skc_family : Z;
  srtt_us : Z;
  rx_opt : tcp_options_received
}.

(** [tcp_sk] is a pointer cast. *)
Definition tcp_sk (sk : sock) : sock := sk.

(** [struct sk_buff]. [head] is the address of the buffer; [network_header],
    [transport_header] and [tail] are offsets from [head]; the bytes of the
    frame are those of [head, head + tail). [protocol] is the [__be16]
    member as the host reads it and [tstamp] is the [ktime_t] (a signed
    64-bit count of nanoseconds). *)
Record sk_buff : Set := {
  head : Z;
  network_header : Z;
  transport_header : Z;
  tail : Z;
  protocol : Z;
  tstamp : Z
}.

(** [skb == NULL]. *)
Definition is_null (skb : option sk_buff) : bool :=
  match skb with None => true | Some _ => false end.

(** The C types of the members of [struct sock]. *)
Definition sock_wf (sk : sock) : Prop :=
  0 <= skc_family sk < 2 ^ 16 /\
  0 <= srtt_us sk < 2 ^ 32 /\
  0 <= rcv_tsval (rx_opt sk) < 2 ^ 32 /\
  0 <= rcv_tsecr (rx_opt sk) < 2 ^ 32.

End Kernel.

(** ** [src/runtime/unfair_runtime.c] *)
Module Runtime.
Import Kernel.

Record pkt_t : Set := {
  saddr : Z;
  daddr : Z;
  sport : Z;
  dport : Z;
  seq : Z;
  srtt_us : Z;
  tsval : Z;
  tsecr : Z;
  total_b : Z;
  ihl_b : Z;
  thl_b : Z;
  payload_b : Z;
  iv : Z;
  time_us : Z
}.

(** [BPF_PERF_OUTPUT(pkts)]: the records submitted so far, oldest first. *)
Definition perf_output : Type := list pkt_t.

Definition perf_submit (pkts : perf_output) (pkt : pkt_t) : perf_output :=
  pkts ++ [pkt].

Definition skb_to_iphdr (skb : sk_buff) : Z :=
  head skb + network_header skb.

Definition skb_to_tcphdr (skb : sk_buff) : Z :=
  head skb + transport_header skb.

(** The handler, built with the arm [arm] of its [#if] blocks for a host
    that reads memory in the order [bo]. [skb] is [None] for a null pointer.
    The result is the returned [int] and the perf output after the call. *)
Definition trace_tcp_rcv (arm : cpp_arm) (bo : byte_order) (m : kmem)
    (sk : sock) (skb : option sk_buff) (pkts : perf_output)
  : Z * perf_output :=
  if negb (skc_family sk =? AF_INET) || is_null skb then (0, pkts) else
  match skb with
  | None => (0, pkts)
  | Some skb =>
    if negb (protocol skb =? htons bo ETH_P_IP) then (0, pkts) else
    let ip := skb_to_iphdr skb in
    if negb (load_u8 m (ip + iphdr.off_protocol) =? IPPROTO_TCP)
    then (0, pkts) else
    let pkt_saddr := load_u32 bo m (ip + iphdr.off_saddr) in
    let pkt_daddr := load_u32 bo m (ip + iphdr.off_daddr) in
    let tcp := skb_to_tcphdr skb in
    let sport := load_u16 bo m (tcp + tcphdr.off_source) in
    let dport := load_u16 bo m (tcp + tcphdr.off_dest) in
    let pkt_dport := ntohs bo dport in
    let pkt_sport := ntohs bo sport in
    let pkt_seq := load_u32 bo m (tcp + tcphdr.off_seq) in
    let ts := tcp_sk sk in
    let pkt_srtt_us := Z.shiftr (Kernel.srtt_us ts) 3 in
    let pkt_tsval := rcv_tsval (rx_opt ts) in
    let pkt_tsecr := rcv_tsecr (rx_opt ts) in
    let total_b := load_u16 bo m (ip + iphdr.off_tot_len) in
    let pkt_total_b := ntohs bo total_b in
    let f :=
      bpf_probe_read_u8 m
        (ptr_add iphdr.sizeof_tos (ip + iphdr.off_tos) (- 1)) in
    let '(ihl, iv) :=
      match arm with
      | IF_ARM =>
          (u8 (Z.shiftr (Z.land f 0xf0) 4), u8 (Z.land f 0x0f))
      | ELIF_ARM =>
          (u8 (Z.land f 0x0f), u8 (Z.shiftr (Z.land f 0xf0) 4))
      end in
    let pkt_ihl_b := u32 (u32 ihl * 4) in
    let pkt_iv := u32 iv in
    let thl :=
      bpf_probe_read_u8 m
        (ptr_add tcphdr.sizeof_ack_seq (tcp + tcphdr.off_ack_seq) 4) in
    let thl :=
      match arm with
      | IF_ARM   => u8 (Z.shiftr (Z.land thl 0x0f) 4)
      | ELIF_ARM => u8 (Z.shiftr (Z.land thl 0xf0) 4)
      end in
    let pkt_thl_b := u32 (u32 thl * 4) in
    let pkt_payload_b := u32 (u32 (pkt_total_b - pkt_ihl_b) - pkt_thl_b) in
    let tstamp := tstamp skb in
    let pkt_time_us := u64 tstamp / 1000000 in
    let pkt :=
      {| saddr := pkt_saddr; daddr := pkt_daddr;
         sport := pkt_sport; dport := pkt_dport; seq := pkt_seq;
         srtt_us := pkt_srtt_us; tsval := pkt_tsval; tsecr := pkt_tsecr;
         total_b := pkt_total_b; ihl_b := pkt_ihl_b; thl_b := pkt_thl_b;
         payload_b := pkt_payload_b; iv := pkt_iv;
         time_us := pkt_time_us |} in
    (0, perf_submit pkts pkt)
  end.

End Runtime.

(** ** [src/unfair/runtime/unfair_runtime.c]

    The members of [struct pkt_t] are declared [total_bytes], [ihl_bytes],
    [thl_bytes] and [payload_bytes]; the assignments of the handler write them
    as [total_B], [ihl_B], [thl_B] and [payload_B]. The record keeps the
    declared names. *)
Module UnfairRuntime.
Import Kernel.

Record pkt_t : Set := {
  saddr : Z;
  daddr : Z;
  sport : Z;
  dport : Z;
  seq : Z;
  srtt_us : Z;
  tsval : Z;
  tsecr : Z;
  total_bytes : Z;
  ihl_bytes : Z;
  thl_bytes : Z;
  payload_bytes : Z;
  padding : Z;
  time_us : Z
}.

Definition perf_output : Type := list pkt_t.

Definition perf_submit (pkts : perf_output) (pkt : pkt_t) : perf_output :=
  pkts ++ [pkt].

Definition skb_to_iphdr (skb : sk_buff) : Z :=
  head skb + network_header skb.

Definition skb_to_tcphdr (skb : sk_buff) : Z :=
  head skb + transport_header skb.

(** The handler, built with the arm [arm] of its [#if] blocks for a host
    that reads memory in the order [bo]. [pkt] starts zeroed
    ([struct pkt_t pkt = {}]), which is where [padding] gets its value. *)
Definition trace_tcp_rcv (arm : cpp_arm) (bo : byte_order) (m : kmem)
    (sk : sock) (skb : option sk_buff) (pkts : perf_output)
  : Z * perf_output :=
  if is_null skb then (0, pkts) else
  match skb with
  | None => (0, pkts)
  | Some skb =>
    if negb (protocol skb =? htons bo ETH_P_IP) then (0, pkts) else
    let ip := skb_to_iphdr skb in
    if negb (load_u8 m (ip + iphdr.off_protocol) =? IPPROTO_TCP)
    then (0, pkts) else
    let pkt_saddr := load_u32 bo m (ip + iphdr.off_saddr) in
    let pkt_daddr := load_u32 bo m (ip + iphdr.off_daddr) in
    let tcp := skb_to_tcphdr skb in
    let sport := load_u16 bo m (tcp + tcphdr.off_source) in
    let dport := load_u16 bo m (tcp + tcphdr.off_dest) in
    let pkt_dport := ntohs bo dport in
    let pkt_sport := ntohs bo sport in
    let pkt_seq := load_u32 bo m (tcp + tcphdr.off_seq) in
    let ts := tcp_sk sk in
    let pkt_srtt_us := Z.shiftr (Kernel.srtt_us ts) 3 in
    let pkt_tsval := rcv_tsval (rx_opt ts) in
    let pkt_tsecr := rcv_tsecr (rx_opt ts) in
    let total_B := load_u16 bo m (ip + iphdr.off_tot_len) in
    let pkt_total_B := ntohs bo total_B in
    let ihl :=
      bpf_probe_read_u8 m
        (ptr_add iphdr.sizeof_tos (ip + iphdr.off_tos) (- 1)) in
    let ihl :=
      match arm with
      | IF_ARM   => u8 (Z.shiftr (Z.land ihl 0xf0) 4)
      | ELIF_ARM => u8 (Z.land ihl 0x0f)
      end in
    let pkt_ihl_B := u32 (u32 ihl * 4) in
    let thl :=
      bpf_probe_read_u8 m
        (ptr_add tcphdr.sizeof_ack_seq (tcp + tcphdr.off_ack_seq) 4) in
    let thl :=
      match arm with
      | IF_ARM   => u8 (Z.shiftr (Z.land thl 0x0f) 4)
      | ELIF_ARM => u8 (Z.shiftr (Z.land thl 0xf0) 4)
      end in
    let pkt_thl_B := u32 (u32 thl * 4) in
    let pkt_payload_B := u32 (u32 (pkt_total_B - pkt_ihl_B) - pkt_thl_B) in
    let tstamp := tstamp skb in
    let pkt_time_us := u64 tstamp / 1000000 in
    let pkt :=
      {| saddr := pkt_saddr; daddr := pkt_daddr;
         sport := pkt_sport; dport := pkt_dport; seq := pkt_seq;
         srtt_us := pkt_srtt_us; tsval := pkt_tsval; tsecr := pkt_tsecr;
         total_bytes := pkt_total_B; ihl_bytes := pkt_ihl_B;
         thl_bytes := pkt_thl_B; payload_bytes := pkt_payload_B;
         padding := 0;
         time_us := pkt_time_us |} in
    (0, perf_submit pkts pkt)
  end.

End UnfairRuntime.

(** ** Vocabulary of the specification *)

(** What a call did to the perf output: it appended the record [r], or it
    left the output as it was. *)
Definition submits {A : Type} (out : Z * list A) (pkts : list A) (r : A)
  : Prop :=
  snd out = pkts ++ [r].

Definition submits_nothing {A : Type} (out : Z * list A) (pkts : list A)
  : Prop :=
  snd out = pkts.

(** The header-length fields as the wire formats define them (RFC 791 and
    RFC 793): the IHL is the low nibble of the first byte of the IP header,
    the data offset is the high nibble of the byte that follows the
    acknowledgment number, twelve bytes into the TCP header. *)
Definition wire_ihl (m : Kernel.kmem) (skb : Kernel.sk_buff) : Z :=
  Kernel.load_u8 m (Kernel.head skb + Kernel.network_header skb) mod 16.

Definition wire_doff (m : Kernel.kmem) (skb : Kernel.sk_buff) : Z :=
  Kernel.load_u8 m (Kernel.head skb + Kernel.transport_header skb + 12) / 16.

(** The frame passes the three tests of the filter that concern the frame
    itself. *)
Definition ipv4_tcp_frame (bo : byte_order) (m : Kernel.kmem)
    (skb : Kernel.sk_buff) : Prop :=
  Kernel.protocol skb = Kernel.htons bo Kernel.ETH_P_IP /\
  Kernel.load_u8 m (Kernel.head skb + Kernel.network_header skb + 9)
  = Kernel.IPPROTO_TCP.

(** A header whose declared length runs past the bytes of the frame. *)
Definition ip_header_truncated (m : Kernel.kmem) (skb : Kernel.sk_buff)
  : Prop :=
  Kernel.tail skb < Kernel.network_header skb + 4 * wire_ihl m skb.

Definition tcp_header_truncated (m : Kernel.kmem) (skb : Kernel.sk_buff)
  : Prop :=
  Kernel.tail skb < Kernel.transport_header skb + 4 * wire_doff m skb.

(** The same [sk_buff] with another extent of captured bytes. *)
Definition with_tail (skb : Kernel.sk_buff) (t : Z) : Kernel.sk_buff :=
  {| Kernel.head := Kernel.head skb;
     Kernel.network_header := Kernel.network_header skb;
     Kernel.transport_header := Kernel.transport_header skb;
     Kernel.tail := t;
     Kernel.protocol := Kernel.protocol skb;
     Kernel.tstamp := Kernel.tstamp skb |}.

(** The three lengths the handler decodes from a frame. The total length is
    the network-order value of [tot_len]. The IP header length is four times
    a nibble of the first byte of the IP header: the high one under the
    first arm, the low one under the second. The TCP header length is four
    times what is left of a byte masked with 0x0f and shifted right by four,
    nothing, under the first arm; under the second it is four times the high
    nibble of the byte four 32-bit words past [ack_seq], 24 bytes into the
    TCP header. *)
Definition decoded_total (m : Kernel.kmem) (skb : Kernel.sk_buff) : Z :=
  Kernel.load_u16 BIG_ENDIAN m
    (Kernel.head skb + Kernel.network_header skb + 2).

Definition decoded_ihl (arm : cpp_arm) (m : Kernel.kmem)
    (skb : Kernel.sk_buff) : Z :=
  match arm with
  | IF_ARM =>
      4 * (Kernel.load_u8 m (Kernel.head skb + Kernel.network_header skb)
           / 16)
  | ELIF_ARM =>
      4 * (Kernel.load_u8 m (Kernel.head skb + Kernel.network_header skb)
           mod 16)
  end.

Definition decoded_thl (arm : cpp_arm) (m : Kernel.kmem)
    (skb : Kernel.sk_buff) : Z :=
  match arm with
  | IF_ARM => 0
  | ELIF_ARM =>
      4 * (Kernel.load_u8 m
             (Kernel.head skb + Kernel.transport_header skb + 24) / 16)
  end.

(** The addresses of the bytes the handler reads for the [sk_buff] [s]: in
    the IP header the first byte, [tot_len], [protocol], [saddr] and [daddr];
    in the TCP header [source], [dest], [seq] and the byte 24 bytes in. *)
Definition reads (s : Kernel.sk_buff) : list Z :=
  let ip := Kernel.head s + Kernel.network_header s in
  let tcp := Kernel.head s + Kernel.transport_header s in
  [ip; ip + 2; ip + 3; ip + 9;
   ip + 12; ip + 13; ip + 14; ip + 15; ip + 16; ip + 17; ip + 18; ip + 19;
   tcp; tcp + 1; tcp + 2; tcp + 3; tcp + 4; tcp + 5; tcp + 6; tcp + 7;
   tcp + 24].

(** Two memories that hold the same bytes at the addresses of [l]. *)
Definition agree_on (l : list Z) (m m' : Kernel.kmem) : Prop :=
  forall a, In a l -> m a = m' a.

(** The memory [m] with the byte at [a] overwritten by [v]. *)
Definition mem_set (m : Kernel.kmem) (a v : Z) : Kernel.kmem :=
  fun x => if x =? a then v else m x.

(** A record of src/runtime laid out as src/unfair/runtime declares it: the
    member [iv] gives way to a zero [padding]. *)
Definition to_unfair (r : Runtime.pkt_t) : UnfairRuntime.pkt_t :=
  {| UnfairRuntime.saddr := Runtime.saddr r;
     UnfairRuntime.daddr := Runtime.daddr r;
     UnfairRuntime.sport := Runtime.sport r;
     UnfairRuntime.dport := Runtime.dport r;
     UnfairRuntime.seq := Runtime.seq r;
     UnfairRuntime.srtt_us := Runtime.srtt_us r;
     UnfairRuntime.tsval := Runtime.tsval r;
     UnfairRuntime.tsecr := Runtime.tsecr r;
     UnfairRuntime.total_bytes := Runtime.total_b r;
     UnfairRuntime.ihl_bytes := Runtime.ihl_b r;
     UnfairRuntime.thl_bytes := Runtime.thl_b r;
     UnfairRuntime.payload_bytes := Runtime.payload_b r;
     UnfairRuntime.padding := 0;
     UnfairRuntime.time_us := Runtime.time_us r |}.

(** ** Concrete frames *)
Module Samples.
Import Kernel.

(** Memory holding [bytes] from address [base] on, zero elsewhere. *)
Definition mem_of_bytes (base : Z) (bytes : list Z) : kmem :=
  fun a => if base <=? a then nth (Z.to_nat (a - base)) bytes 0 else 0.

Definition eth_hdr : list Z :=
  [0x02; 0; 0; 0; 0; 0x01; 0x02; 0; 0; 0; 0; 0x02; 0x08; 0x00].

(** An IPv4 header without options: first byte [vihl], total length [tot],
    protocol [proto], 10.0.0.1 -> 10.0.0.2. *)
Definition ip_hdr (vihl tot proto : Z) : list Z :=
  [vihl; 0; tot / 256; tot mod 256; 0; 0; 0x40; 0; 64; proto; 0; 0;
   10; 0; 0; 1; 10; 0; 0; 2].

(** A TCP header: ports 8080 -> 443, sequence number 1, the byte [doff]
    after the acknowledgment number; 24 bytes in comes the byte [opt]. *)
Definition tcp_hdr (doff opt : Z) : list Z :=
  [0x1f; 0x90; 0x01; 0xbb; 0; 0; 0; 1; 0; 0; 0; 0; doff; 0x10; 0xff; 0xff;
   0; 0; 0; 0; 1; 1; 8; 10; opt; 0; 0; 7; 0; 0; 0; 9].

Definition frame_base : Z := 4096.

Definition frame_mem (vihl tot proto doff opt : Z) : kmem :=
  mem_of_bytes frame_base
    (eth_hdr ++ ip_hdr vihl tot proto ++ tcp_hdr doff opt).

(** The [sk_buff] of such a frame on a host of byte order [bo], with [t]
    captured bytes and time stamp [ns]. *)
Definition frame_skb (bo : byte_order) (t ns : Z) : sk_buff :=
  {| head := frame_base; network_header := 14; transport_header := 34;
     tail := t;
     protocol :=
       match bo with LITTLE_ENDIAN => 0x0008 | BIG_ENDIAN => 0x0800 end;
     tstamp := ns |}.

Definition tcp4_sock : sock :=
  {| skc_family := AF_INET; srtt_us := 8005;
     rx_opt := {| rcv_tsval := 111; rcv_tsecr := 222 |} |}.

(** A socket of family AF_INET6. *)
Definition tcp6_sock : sock :=
  {| skc_family := 10; srtt_us := 8005;
     rx_opt := {| rcv_tsval := 111; rcv_tsecr := 222 |} |}.

(** The pure acknowledgment used throughout: version 4, IHL 5, total
    length 40, data offset 5, captured whole (54 bytes) at 1000000500 ns;
    24 bytes into the TCP header lies the byte 0xa0. *)
Definition ack_mem : kmem := frame_mem 0x45 40 6 0x50 0xa0.
Definition ack_skb (bo : byte_order) : sk_buff := frame_skb bo 54 1000000500.

(** [ack_mem] with another data-offset byte (0x80 for 0x50). *)
Definition ack_mem_doff8 : kmem := frame_mem 0x45 40 6 0x80 0xa0.

(** A frame whose total length field says 10 and of which only 24 bytes
    were captured, ten of them of the IP header. *)
Definition short_mem : kmem := frame_mem 0x45 10 6 0x50 0xa0.
Definition short_skb (bo : byte_order) : sk_buff :=
  frame_skb bo 24 1000000500.

(** The same pure acknowledgment carried by UDP's protocol number. *)
Definition udp_mem : kmem := frame_mem 0x45 40 17 0x50 0xa0.

(** A frame whose header-length nibbles are all 3: first IP byte 0x33,
    data-offset byte 0x30, and 0x30 again 24 bytes into the TCP header. *)
Definition runt_mem : kmem := frame_mem 0x33 40 6 0x30 0x30.


(** What is recorded for [ack_mem], by arm and by host byte order. *)
Definition ack_pkt_rt (arm : cpp_arm) (bo : byte_order) : Runtime.pkt_t :=
  {| Runtime.saddr :=
       match bo with LITTLE_ENDIAN => 16777226 | BIG_ENDIAN => 167772161 end;
     Runtime.daddr :=
       match bo with LITTLE_ENDIAN => 33554442 | BIG_ENDIAN => 167772162 end;
     Runtime.sport := 8080; Runtime.dport := 443;
     Runtime.seq :=
       match bo with LITTLE_ENDIAN => 16777216 | BIG_ENDIAN => 1 end;
     Runtime.srtt_us := 1000; Runtime.tsval := 111; Runtime.tsecr := 222;
     Runtime.total_b := 40;
     Runtime.ihl_b := match arm with IF_ARM => 16 | ELIF_ARM => 20 end;
     Runtime.thl_b := match arm with IF_ARM => 0 | ELIF_ARM => 40 end;
     Runtime.payload_b :=
       match arm with IF_ARM => 24 | ELIF_ARM => 4294967276 end;
     Runtime.iv := match arm with IF_ARM => 5 | ELIF_ARM => 4 end;
     Runtime.time_us := 1000 |}.

Definition ack_pkt_un (arm : cpp_arm) (bo : byte_order)
  : UnfairRuntime.pkt_t :=
  {| UnfairRuntime.saddr :=
       match bo with LITTLE_ENDIAN => 16777226 | BIG_ENDIAN => 167772161 end;
     UnfairRuntime.daddr :=
       match bo with LITTLE_ENDIAN => 33554442 | BIG_ENDIAN => 167772162 end;
     UnfairRuntime.sport := 8080; UnfairRuntime.dport := 443;
     UnfairRuntime.seq :=
       match bo with LITTLE_ENDIAN => 16777216 | BIG_ENDIAN => 1 end;
     UnfairRuntime.srtt_us := 1000;
     UnfairRuntime.tsval := 111; UnfairRuntime.tsecr := 222;
     UnfairRuntime.total_bytes := 40;
     UnfairRuntime.ihl_bytes :=
       match arm with IF_ARM => 16 | ELIF_ARM => 20 end;
     UnfairRuntime.thl_bytes :=
       match arm with IF_ARM => 0 | ELIF_ARM => 40 end;
     UnfairRuntime.payload_bytes :=
       match arm with IF_ARM => 24 | ELIF_ARM => 4294967276 end;
     UnfairRuntime.padding := 0; UnfairRuntime.time_us := 1000 |}.

(** What is recorded for [short_mem], by arm and by host byte order. *)
Definition short_pkt_rt (arm : cpp_arm) (bo : byte_order) : Runtime.pkt_t :=
  {| Runtime.saddr :=
       match bo with LITTLE_ENDIAN => 16777226 | BIG_ENDIAN => 167772161 end;
     Runtime.daddr :=
       match bo with LITTLE_ENDIAN => 33554442 | BIG_ENDIAN => 167772162 end;
     Runtime.sport := 8080; Runtime.dport := 443;
     Runtime.seq :=
       match bo with LITTLE_ENDIAN => 16777216 | BIG_ENDIAN => 1 end;
     Runtime.srtt_us := 1000; Runtime.tsval := 111; Runtime.tsecr := 222;
     Runtime.total_b := 10;
     Runtime.ihl_b := match arm with IF_ARM => 16 | ELIF_ARM => 20 end;
     Runtime.thl_b := match arm with IF_ARM => 0 | ELIF_ARM => 40 end;
     Runtime.payload_b :=
       match arm with IF_ARM => 4294967290 | ELIF_ARM => 4294967246 end;
     Runtime.iv := match arm with IF_ARM => 5 | ELIF_ARM => 4 end;
     Runtime.time_us := 1000 |}.

Definition short_pkt_un (arm : cpp_arm) (bo : byte_order)
  : UnfairRuntime.pkt_t :=
  {| UnfairRuntime.saddr :=
       match bo with LITTLE_ENDIAN => 16777226 | BIG_ENDIAN => 167772161 end;
     UnfairRuntime.daddr :=
       match bo with LITTLE_ENDIAN => 33554442 | BIG_ENDIAN => 167772162 end;
     UnfairRuntime.sport := 8080; UnfairRuntime.dport := 443;
     UnfairRuntime.seq :=
       match bo with LITTLE_ENDIAN => 16777216 | BIG_ENDIAN => 1 end;
     UnfairRuntime.srtt_us := 1000;
     UnfairRuntime.tsval := 111; UnfairRuntime.tsecr := 222;
     UnfairRuntime.total_bytes := 10;
     UnfairRuntime.ihl_bytes :=
       match arm with IF_ARM => 16 | ELIF_ARM => 20 end;
     UnfairRuntime.thl_bytes :=
       match arm with IF_ARM => 0 | ELIF_ARM => 40 end;
     UnfairRuntime.payload_bytes :=
       match arm with IF_ARM => 4294967290 | ELIF_ARM => 4294967246 end;
     UnfairRuntime.padding := 0; UnfairRuntime.time_us := 1000 |}.

(** What is recorded for [runt_mem] on a little-endian host, by arm. *)
Definition runt_pkt_rt (arm : cpp_arm) : Runtime.pkt_t :=
  {| Runtime.saddr := 16777226; Runtime.daddr := 33554442;
     Runtime.sport := 8080; Runtime.dport := 443; Runtime.seq := 16777216;
     Runtime.srtt_us := 1000; Runtime.tsval := 111; Runtime.tsecr := 222;
     Runtime.total_b := 40; Runtime.ihl_b := 12;
     Runtime.thl_b := match arm with IF_ARM => 0 | ELIF_ARM => 12 end;
     Runtime.payload_b := match arm with IF_ARM => 28 | ELIF_ARM => 16 end;
     Runtime.iv := 3; Runtime.time_us := 1000 |}.

Definition runt_pkt_un (arm : cpp_arm) : UnfairRuntime.pkt_t :=
  {| UnfairRuntime.saddr := 16777226; UnfairRuntime.daddr := 33554442;
     UnfairRuntime.sport := 8080; UnfairRuntime.dport := 443;
     UnfairRuntime.seq := 16777216; UnfairRuntime.srtt_us := 1000;
     UnfairRuntime.tsval := 111; UnfairRuntime.tsecr := 222;
     UnfairRuntime.total_bytes := 40; UnfairRuntime.ihl_bytes := 12;
     UnfairRuntime.thl_bytes :=
       match arm with IF_ARM => 0 | ELIF_ARM => 12 end;
     UnfairRuntime.payload_bytes :=
       match arm with IF_ARM => 28 | ELIF_ARM => 16 end;
     UnfairRuntime.padding := 0; UnfairRuntime.time_us := 1000 |}.

End Samples.

(** The samples are what the handlers compute. *)
Lemma samples_are_recorded (arm : cpp_arm) (bo : byte_order) :
  (Runtime.trace_tcp_rcv arm bo Samples.ack_mem Samples.tcp4_sock
     (Some (Samples.ack_skb bo)) [] = (0, [Samples.ack_pkt_rt arm bo]) /\
   UnfairRuntime.trace_tcp_rcv arm bo Samples.ack_mem Samples.tcp4_sock
     (Some (Samples.ack_skb bo)) [] = (0, [Samples.ack_pkt_un arm bo])) /\
  (Runtime.trace_tcp_rcv arm bo Samples.short_mem Samples.tcp4_sock
     (Some (Samples.short_skb bo)) [] = (0, [Samples.short_pkt_rt arm bo]) /\
   UnfairRuntime.trace_tcp_rcv arm bo Samples.short_mem Samples.tcp4_sock
     (Some (Samples.short_skb bo)) []
   = (0, [Samples.short_pkt_un arm bo])) /\
  (Runtime.trace_tcp_rcv arm LITTLE_ENDIAN Samples.runt_mem
     Samples.tcp4_sock (Some (Samples.ack_skb LITTLE_ENDIAN)) []
   = (0, [Samples.runt_pkt_rt arm]) /\
   UnfairRuntime.trace_tcp_rcv arm LITTLE_ENDIAN Samples.runt_mem
     Samples.tcp4_sock (Some (Samples.ack_skb LITTLE_ENDIAN)) []
   = (0, [Samples.runt_pkt_un arm])).
Proof. destruct arm, bo; repeat split; vm_compute; reflexivity. Qed.

(** ** Bytes, nibbles and wrap-around *)

Lemma load_u8_range (m : Kernel.kmem) (a : Z) :
  0 <= Kernel.load_u8 m a < 256.
Proof.
  unfold Kernel.load_u8, u8. change (2 ^ 8) with 256.
  apply Z.mod_pos_bound. lia.
Qed.

(** A property of bytes that holds of the 256 of them holds of any. *)
Lemma byte_cases (P : Z -> bool) :
  forallb P (map Z.of_nat (List.seq 0 256)) = true ->
  forall f, 0 <= f < 256 -> P f = true.
Proof.
  intros Hall f Hf.
  rewrite forallb_forall in Hall. apply Hall.
  apply in_map_iff. exists (Z.to_nat f). split.
  - lia.
  - apply in_seq. lia.
Qed.

Lemma high_nibble (f : Z) :
  0 <= f < 256 -> u8 (Z.shiftr (Z.land f 0xf0) 4) = f / 16.
Proof.
  intros Hf. apply Z.eqb_eq.
  apply (byte_cases (fun f => u8 (Z.shiftr (Z.land f 0xf0) 4) =? f / 16));
    [vm_compute; reflexivity | exact Hf].
Qed.

Lemma low_nibble (f : Z) :
  0 <= f < 256 -> u8 (Z.land f 0x0f) = f mod 16.
Proof.
  intros Hf. apply Z.eqb_eq.
  apply (byte_cases (fun f => u8 (Z.land f 0x0f) =? f mod 16));
    [vm_compute; reflexivity | exact Hf].
Qed.

(** Masking the low nibble and then shifting it out leaves nothing. *)
Lemma low_nibble_shifted_out (f : Z) :
  0 <= f < 256 -> u8 (Z.shiftr (Z.land f 0x0f) 4) = 0.
Proof.
  intros Hf. apply Z.eqb_eq.
  apply (byte_cases (fun f => u8 (Z.shiftr (Z.land f 0x0f) 4) =? 0));
    [vm_compute; reflexivity | exact Hf].
Qed.

Lemma nibble_words (n : Z) :
  0 <= n <= 15 -> u32 (u32 n * 4) = 4 * n.
Proof.
  intros Hn. unfold u32.
  rewrite (Z.mod_small n) by lia. rewrite Z.mod_small; lia.
Qed.

Lemma div16_range (f : Z) : 0 <= f < 256 -> 0 <= f / 16 <= 15.
Proof.
  intros Hf. split.
  - apply Z.div_pos; lia.
  - apply Z.lt_succ_r. apply Z.div_lt_upper_bound; lia.
Qed.

Lemma mod16_range (f : Z) : 0 <= f mod 16 <= 15.
Proof. pose proof (Z.mod_pos_bound f 16 ltac:(lia)). lia. Qed.

Lemma load_u16_range (bo : byte_order) (m : Kernel.kmem) (a : Z) :
  0 <= Kernel.load_u16 bo m a < 2 ^ 16.
Proof.
  pose proof (load_u8_range m a). pose proof (load_u8_range m (a + 1)).
  destruct bo; unfold Kernel.load_u16; lia.
Qed.

(** ** The perf output *)

Lemma submit_inj {A : Type} (pkts : list A) (r r' : A) :
  pkts ++ [r] = pkts ++ [r'] -> r = r'.
Proof.
  intros H. apply app_inv_head in H. congruence.
Qed.

Lemma submit_grows {A : Type} (pkts : list A) (r : A) :
  pkts ++ [r] <> pkts.
Proof.
  intros H. apply (f_equal (@length A)) in H.
  rewrite length_app in H. simpl in H. lia.
Qed.

(** From "the call submitted [r]" to the path the handler took: every early
    return is ruled out, and [r] is the record built on the last line. *)
Ltac submitted H :=
  unfold submits in H;
  try unfold Runtime.trace_tcp_rcv in H;
  try unfold UnfairRuntime.trace_tcp_rcv in H;
  cbv zeta in H;
  repeat
    match type of H with
    | snd (if ?c then _ else _) = _ => destruct c eqn:?
    | snd (match ?s with None => _ | Some _ => _ end) = _ => destruct s
    | snd (let '(_, _) := match ?b with IF_ARM => _ | ELIF_ARM => _ end
           in _) = _ => destruct b
    | snd (0, ?p) = ?p ++ _ =>
        exfalso; cbn [snd] in H; symmetry in H; exact (submit_grows _ _ H)
    end;
  cbn [snd] in H;
  unfold Runtime.perf_submit, UnfairRuntime.perf_submit in H;
  apply submit_inj in H; subst.

Ltac fields :=
  cbn [Runtime.saddr Runtime.daddr Runtime.sport Runtime.dport Runtime.seq
       Runtime.srtt_us Runtime.tsval Runtime.tsecr Runtime.total_b
       Runtime.ihl_b Runtime.thl_b Runtime.payload_b Runtime.iv
       Runtime.time_us
       UnfairRuntime.saddr UnfairRuntime.daddr UnfairRuntime.sport
       UnfairRuntime.dport UnfairRuntime.seq UnfairRuntime.srtt_us
       UnfairRuntime.tsval UnfairRuntime.tsecr UnfairRuntime.total_bytes
       UnfairRuntime.ihl_bytes UnfairRuntime.thl_bytes
       UnfairRuntime.payload_bytes UnfairRuntime.padding
       UnfairRuntime.time_us].

(** ** Byte order of the multi-byte fields *)

(** [ntohs] of a two-byte object read by the host is its big-endian value,
    on either kind of host. *)
Lemma ntohs_load_u16 (bo : byte_order) (m : Kernel.kmem) (a : Z) :
  Kernel.ntohs bo (Kernel.load_u16 bo m a)
  = 256 * Kernel.load_u8 m a + Kernel.load_u8 m (a + 1).
Proof.
  pose proof (load_u8_range m a) as H0.
  pose proof (load_u8_range m (a + 1)) as H1.
  destruct bo; unfold Kernel.ntohs, Kernel.load_u16; [|lia].
  set (b0 := Kernel.load_u8 m a) in *.
  set (b1 := Kernel.load_u8 m (a + 1)) in *.
  clearbody b0 b1. change (2 ^ 8) with 256.
  apply Z.eqb_eq. revert b1 H1.
  apply (byte_cases (fun b0 =>
           forallb (fun b1 => Kernel.swab16 (b0 + 256 * b1) =? 256 * b0 + b1)
                   (map Z.of_nat (List.seq 0 256)))) in H0.
  - intros b1 H1. rewrite forallb_forall in H0. apply H0.
    apply in_map_iff. exists (Z.to_nat b1). split; [lia | apply in_seq; lia].
  - vm_compute. reflexivity.
Qed.

(** [ntohs] of a two-byte object read by the host is what a big-endian
    reader finds there. *)
Lemma ntohs_load_u16_be (bo : byte_order) (m : Kernel.kmem) (a : Z) :
  Kernel.ntohs bo (Kernel.load_u16 bo m a) = Kernel.load_u16 BIG_ENDIAN m a.
Proof. exact (ntohs_load_u16 bo m a). Qed.

(** ** Byte swapping *)

(** A byte mask selects one base-256 digit. *)
Lemma land_byte_mask (x k : Z) :
  0 <= k -> Z.land x (Z.shiftl 255 k) = (x / 2 ^ k) mod 256 * 2 ^ k.
Proof.
  intros Hk.
  change 256 with (2 ^ 8).
  rewrite <- Z.land_ones, <- Z.shiftr_div_pow2, <- Z.shiftl_mul_pow2 by lia.
  rewrite Z.shiftl_land. change (Z.ones 8) with 255.
  apply Z.bits_inj'. intros n Hn. rewrite !Z.land_spec.
  destruct (Z.lt_ge_cases n k) as [Hlt | Hge].
  - rewrite (Z.shiftl_spec_low 255) by lia. rewrite !andb_false_r.
    reflexivity.
  - rewrite (Z.shiftl_spec (Z.shiftr x k)), Z.shiftr_spec by lia.
    replace (n - k + k) with n by lia. reflexivity.
Qed.

(** The bitwise or of two numbers with no bit in common is their sum. *)
Lemma lor_disjoint_add (hi lo k : Z) :
  0 <= k -> 0 <= lo < 2 ^ k -> Z.lor (hi * 2 ^ k) lo = hi * 2 ^ k + lo.
Proof.
  intros Hk Hlo.
  assert (Hdis : Z.land (hi * 2 ^ k) lo = 0).
  { apply Z.bits_inj'. intros n Hn. rewrite Z.land_spec, Z.bits_0.
    destruct (Z.lt_ge_cases n k) as [Hlt | Hge].
    - rewrite Z.mul_pow2_bits_low by lia. reflexivity.
    - destruct (Z.eq_dec lo 0) as [-> | Hnz].
      + rewrite Z.bits_0, andb_false_r. reflexivity.
      + rewrite (Z.bits_above_log2 lo n), andb_false_r; [reflexivity | lia |].
        apply Z.lt_le_trans with k; [|lia].
        apply Z.log2_lt_pow2; lia. }
  rewrite (Z.add_nocarry_lxor _ _ Hdis). symmetry. apply Z.lxor_lor, Hdis.
Qed.

(** [swab32] reverses the four bytes of a 32-bit value. *)
Lemma swab32_bytes (b0 b1 b2 b3 : Z) :
  0 <= b0 < 256 -> 0 <= b1 < 256 -> 0 <= b2 < 256 -> 0 <= b3 < 256 ->
  Kernel.swab32 (b0 + 2 ^ 8 * b1 + 2 ^ 16 * b2 + 2 ^ 24 * b3)
  = 2 ^ 24 * b0 + 2 ^ 16 * b1 + 2 ^ 8 * b2 + b3.
Proof.
  intros H0 H1 H2 H3. unfold Kernel.swab32.
  set (x := b0 + 2 ^ 8 * b1 + 2 ^ 16 * b2 + 2 ^ 24 * b3).
  change 255 with (Z.shiftl 255 0).
  change 65280 with (Z.shiftl 255 8).
  change 16711680 with (Z.shiftl 255 16).
  change 4278190080 with (Z.shiftl 255 24).
  rewrite !land_byte_mask by lia.
  assert (E0 : (x / 2 ^ 0) mod 256 = b0)
    by (subst x; change (2 ^ 0) with 1; Z.div_mod_to_equations; lia).
  assert (E1 : (x / 2 ^ 8) mod 256 = b1)
    by (subst x; Z.div_mod_to_equations; lia).
  assert (E2 : (x / 2 ^ 16) mod 256 = b2)
    by (subst x; Z.div_mod_to_equations; lia).
  assert (E3 : (x / 2 ^ 24) mod 256 = b3)
    by (subst x; Z.div_mod_to_equations; lia).
  rewrite E0, E1, E2, E3.
  rewrite !Z.shiftl_mul_pow2, !Z.shiftr_div_pow2 by lia.
  replace (b0 * 2 ^ 0 * 2 ^ 24) with (b0 * 2 ^ 24) by lia.
  replace (b1 * 2 ^ 8 * 2 ^ 8) with (b1 * 2 ^ 16) by lia.
  replace (b2 * 2 ^ 16 / 2 ^ 8) with (b2 * 2 ^ 8)
    by (Z.div_mod_to_equations; lia).
  replace (b3 * 2 ^ 24 / 2 ^ 24) with b3 by (Z.div_mod_to_equations; lia).
  rewrite (lor_disjoint_add b0 (b1 * 2 ^ 16) 24) by lia.
  rewrite (lor_disjoint_add b2 b3 8) by lia.
  replace (b0 * 2 ^ 24 + b1 * 2 ^ 16) with ((b0 * 2 ^ 8 + b1) * 2 ^ 16)
    by lia.
  rewrite lor_disjoint_add by lia.
  unfold u32. rewrite Z.mod_small; lia.
Qed.

(** [ntohl] of a four-byte object read by the host is its big-endian value,
    on either kind of host. *)
Lemma ntohl_load_u32 (bo : byte_order) (m : Kernel.kmem) (a : Z) :
  Kernel.ntohl bo (Kernel.load_u32 bo m a)
  = Kernel.load_u32 BIG_ENDIAN m a.
Proof.
  destruct bo; unfold Kernel.ntohl, Kernel.load_u32; [|reflexivity].
  apply swab32_bytes; apply load_u8_range.
Qed.

(** [swab16] undoes itself on 16-bit values. *)
Lemma swab16_involutive (x : Z) :
  0 <= x < 2 ^ 16 -> Kernel.swab16 (Kernel.swab16 x) = x.
Proof.
  intros Hx.
  assert (Hlo : 0 <= x mod 256 < 256) by (apply Z.mod_pos_bound; lia).
  assert (Hhi : 0 <= x / 256 < 256)
    by (split; [apply Z.div_pos | apply Z.div_lt_upper_bound]; lia).
  pose proof (Z.div_mod x 256 ltac:(lia)) as Hdm.
  set (hi := x / 256) in *. set (lo := x mod 256) in *. clearbody hi lo.
  subst x. clear Hx.
  apply Z.eqb_eq. revert lo Hlo.
  apply (byte_cases (fun hi =>
           forallb (fun lo =>
                      Kernel.swab16 (Kernel.swab16 (256 * hi + lo))
                      =? 256 * hi + lo)
                   (map Z.of_nat (List.seq 0 256)))) in Hhi.
  - intros lo Hlo. rewrite forallb_forall in Hhi. apply Hhi.
    apply in_map_iff. exists (Z.to_nat lo). split; [lia | apply in_seq; lia].
  - vm_compute. reflexivity.
Qed.

(** ** The arm that is compiled *)

(** With the kernel's byte-order headers a little-endian host compiles the
    second arm and a big-endian host the first; with the macros of a C
    library's [endian.h] it is the other way round. *)
Lemma arm_of_build :
  byte_order_arm (Kernel.byteorder_macros LITTLE_ENDIAN) = Some ELIF_ARM /\
  byte_order_arm (Kernel.byteorder_macros BIG_ENDIAN) = Some IF_ARM /\
  byte_order_arm (Kernel.endian_h_macros LITTLE_ENDIAN) = Some IF_ARM /\
  byte_order_arm (Kernel.endian_h_macros BIG_ENDIAN) = Some ELIF_ARM.
Proof. repeat split. Qed.

(** ** The filter *)

(** A frame that passes the filter is submitted: nothing after the three
    tests can stop the handler. *)
Lemma rt_accepts (arm : cpp_arm) (bo : byte_order) (m : Kernel.kmem)
    (sk : Kernel.sock) (s : Kernel.sk_buff) (pkts : Runtime.perf_output) :
  Kernel.skc_family sk = Kernel.AF_INET ->
  ipv4_tcp_frame bo m s ->
  exists r,
    submits (Runtime.trace_tcp_rcv arm bo m sk (Some s) pkts) pkts r.
Proof.
  intros Hfam [Hproto Htcp].
  unfold submits, Runtime.trace_tcp_rcv. cbv zeta.
  change (Runtime.skb_to_iphdr s + Kernel.iphdr.off_protocol)
    with (Kernel.head s + Kernel.network_header s + 9).
  rewrite Hfam, Hproto, Htcp, !Z.eqb_refl. cbn [negb orb Kernel.is_null].
  destruct arm; eexists; reflexivity.
Qed.

Lemma un_accepts (arm : cpp_arm) (bo : byte_order) (m : Kernel.kmem)
    (sk : Kernel.sock) (s : Kernel.sk_buff)
    (pkts : UnfairRuntime.perf_output) :
  ipv4_tcp_frame bo m s ->
  exists r,
    submits (UnfairRuntime.trace_tcp_rcv arm bo m sk (Some s) pkts) pkts r.
Proof.
  intros [Hproto Htcp].
  unfold submits, UnfairRuntime.trace_tcp_rcv. cbv zeta.
  change (UnfairRuntime.skb_to_iphdr s + Kernel.iphdr.off_protocol)
    with (Kernel.head s + Kernel.network_header s + 9).
  rewrite Hproto, Htcp, !Z.eqb_refl. cbn [negb Kernel.is_null].
  eexists; reflexivity.
Qed.

(** ** What the handlers compute, field by field *)

Lemma decoded_ranges (arm : cpp_arm) (m : Kernel.kmem) (s : Kernel.sk_buff) :
  0 <= decoded_total m s < 2 ^ 16 /\
  (0 <= decoded_ihl arm m s <= 60 /\ decoded_ihl arm m s mod 4 = 0) /\
  (0 <= decoded_thl arm m s <= 60 /\ decoded_thl arm m s mod 4 = 0).
Proof.
  split; [apply load_u16_range|].
  pose proof (div16_range _ (load_u8_range m
                (Kernel.head s + Kernel.network_header s))).
  pose proof (mod16_range (Kernel.load_u8 m
                (Kernel.head s + Kernel.network_header s))).
  pose proof (div16_range _ (load_u8_range m
                (Kernel.head s + Kernel.transport_header s + 24))).
  destruct arm; unfold decoded_ihl, decoded_thl.
  all: rewrite ?(Z.mul_comm 4), ?Z.mod_mul by lia.
  all: repeat split; try reflexivity; lia.
Qed.

(** The first byte of the IP header and the byte 24 bytes into the TCP
    header, at the addresses the handler computes for them. *)
Ltac probe_addresses s :=
  unfold Kernel.bpf_probe_read_u8, Kernel.ptr_add,
    Runtime.skb_to_iphdr, Runtime.skb_to_tcphdr,
    UnfairRuntime.skb_to_iphdr, UnfairRuntime.skb_to_tcphdr,
    Kernel.iphdr.off_tos, Kernel.iphdr.sizeof_tos,
    Kernel.iphdr.off_tot_len,
    Kernel.tcphdr.off_ack_seq, Kernel.tcphdr.sizeof_ack_seq;
  replace (Kernel.head s + Kernel.network_header s + 1 + -1 * 1)
    with (Kernel.head s + Kernel.network_header s) by lia;
  replace (Kernel.head s + Kernel.transport_header s + 8 + 4 * 4)
    with (Kernel.head s + Kernel.transport_header s + 24) by lia.

(** The three lengths of a record are the decoded ones, and its payload
    length is their 32-bit difference. *)
Lemma rt_decoded (arm : cpp_arm) (bo : byte_order) (m : Kernel.kmem)
    (sk : Kernel.sock) (s : Kernel.sk_buff) (pkts : Runtime.perf_output)
    (r : Runtime.pkt_t) :
  submits (Runtime.trace_tcp_rcv arm bo m sk (Some s) pkts) pkts r ->
  Runtime.total_b r = decoded_total m s /\
  Runtime.ihl_b r = decoded_ihl arm m s /\
  Runtime.thl_b r = decoded_thl arm m s /\
  Runtime.payload_b r
  = u32 (u32 (decoded_total m s - decoded_ihl arm m s)
         - decoded_thl arm m s).
Proof.
  intros H.
  pose proof (load_u8_range m (Kernel.head s + Kernel.network_header s))
    as Hf.
  pose proof (load_u8_range m
                (Kernel.head s + Kernel.transport_header s + 24)) as Hg.
  submitted H; fields.
  all: rewrite !ntohs_load_u16_be.
  all: probe_addresses s.
  all: rewrite ?high_nibble, ?low_nibble, ?low_nibble_shifted_out
         by assumption.
  all: rewrite !nibble_words
         by first [lia | apply div16_range; assumption | apply mod16_range].
  all: unfold decoded_total, decoded_ihl, decoded_thl.
  all: repeat split; reflexivity.
Qed.

Lemma un_decoded (arm : cpp_arm) (bo : byte_order) (m : Kernel.kmem)
    (sk : Kernel.sock) (s : Kernel.sk_buff)
    (pkts : UnfairRuntime.perf_output) (r : UnfairRuntime.pkt_t) :
  submits (UnfairRuntime.trace_tcp_rcv arm bo m sk (Some s) pkts) pkts r ->
  UnfairRuntime.total_bytes r = decoded_total m s /\
  UnfairRuntime.ihl_bytes r = decoded_ihl arm m s /\
  UnfairRuntime.thl_bytes r = decoded_thl arm m s /\
  UnfairRuntime.payload_bytes r
  = u32 (u32 (decoded_total m s - decoded_ihl arm m s)
         - decoded_thl arm m s).
Proof.
  intros H.
  pose proof (load_u8_range m (Kernel.head s + Kernel.network_header s))
    as Hf.
  pose proof (load_u8_range m
                (Kernel.head s + Kernel.transport_header s + 24)) as Hg.
  submitted H; fields. destruct arm.
  all: rewrite !ntohs_load_u16_be.
  all: probe_addresses s.
  all: rewrite ?high_nibble, ?low_nibble, ?low_nibble_shifted_out
         by assumption.
  all: rewrite !nibble_words
         by first [lia | apply div16_range; assumption | apply mod16_range].
  all: unfold decoded_total, decoded_ihl, decoded_thl.
  all: repeat split; reflexivity.
Qed.

(** 32-bit subtraction of two header lengths from a total length. *)
Lemma payload_arith (total ihl thl : Z) :
  0 <= total < 2 ^ 16 -> 0 <= ihl <= 60 -> 0 <= thl <= 60 ->
  u32 (u32 (total - ihl) - thl)
  = if ihl + thl <=? total then total - ihl - thl
    else 2 ^ 32 + total - ihl - thl.
Proof.
  intros Ht Hi Hh. unfold u32. rewrite Zminus_mod_idemp_l.
  destruct (ihl + thl <=? total) eqn:Hle.
  - apply Z.leb_le in Hle. apply Z.mod_small. lia.
  - apply Z.leb_gt in Hle. symmetry.
    apply Z.mod_unique with (q := -1); lia.
Qed.

(** The capture time of a record is the time stamp, as an unsigned 64-bit
    number, divided by one million. *)
Lemma rt_time_us (arm : cpp_arm) (bo : byte_order) (m : Kernel.kmem)
    (sk : Kernel.sock) (s : Kernel.sk_buff) (pkts : Runtime.perf_output)
    (r : Runtime.pkt_t) :
  submits (Runtime.trace_tcp_rcv arm bo m sk (Some s) pkts) pkts r ->
  Runtime.time_us r = u64 (Kernel.tstamp s) / 1000000.
Proof. intros H. submitted H; reflexivity. Qed.

Lemma un_time_us (arm : cpp_arm) (bo : byte_order) (m : Kernel.kmem)
    (sk : Kernel.sock) (s : Kernel.sk_buff)
    (pkts : UnfairRuntime.perf_output) (r : UnfairRuntime.pkt_t) :
  submits (UnfairRuntime.trace_tcp_rcv arm bo m sk (Some s) pkts) pkts r ->
  UnfairRuntime.time_us r = u64 (Kernel.tstamp s) / 1000000.
Proof. intros H. submitted H; reflexivity. Qed.

(** What the connection contributes to a record. *)
Lemma rt_connection (arm : cpp_arm) (bo : byte_order) (m : Kernel.kmem)
    (sk : Kernel.sock) (s : Kernel.sk_buff) (pkts : Runtime.perf_output)
    (r : Runtime.pkt_t) :
  submits (Runtime.trace_tcp_rcv arm bo m sk (Some s) pkts) pkts r ->
  Runtime.srtt_us r = Z.shiftr (Kernel.srtt_us sk) 3 /\
  Runtime.tsval r = Kernel.rcv_tsval (Kernel.rx_opt sk) /\
  Runtime.tsecr r = Kernel.rcv_tsecr (Kernel.rx_opt sk).
Proof. intros H. submitted H; repeat split; reflexivity. Qed.

Lemma un_connection (arm : cpp_arm) (bo : byte_order) (m : Kernel.kmem)
    (sk : Kernel.sock) (s : Kernel.sk_buff)
    (pkts : UnfairRuntime.perf_output) (r : UnfairRuntime.pkt_t) :
  submits (UnfairRuntime.trace_tcp_rcv arm bo m sk (Some s) pkts) pkts r ->
  UnfairRuntime.srtt_us r = Z.shiftr (Kernel.srtt_us sk) 3 /\
  UnfairRuntime.tsval r = Kernel.rcv_tsval (Kernel.rx_opt sk) /\
  UnfairRuntime.tsecr r = Kernel.rcv_tsecr (Kernel.rx_opt sk).
Proof. intros H. submitted H; repeat split; reflexivity. Qed.

(** ** The claims of the specification *)

(** C1, evaluated on a little-endian host at the pure acknowledgment whose
    data-offset nibble is 5: a record is submitted and its TCP header length
    is 0 when the first arm is compiled and 40 when the second is, taken
    there from the byte 24 bytes into the TCP header; in neither case is it
    the 5 x 4 = 20 the specification asks for. Both source files agree. *)
Theorem thl_of_data_offset_five_little_endian :
  wire_doff Samples.ack_mem (Samples.ack_skb LITTLE_ENDIAN) = 5 /\
  (map Runtime.thl_b
     (snd (Runtime.trace_tcp_rcv IF_ARM LITTLE_ENDIAN Samples.ack_mem
             Samples.tcp4_sock (Some (Samples.ack_skb LITTLE_ENDIAN)) []))
   = [0] /\
   map Runtime.thl_b
     (snd (Runtime.trace_tcp_rcv ELIF_ARM LITTLE_ENDIAN Samples.ack_mem
             Samples.tcp4_sock (Some (Samples.ack_skb LITTLE_ENDIAN)) []))
   = [40]) /\
  (map UnfairRuntime.thl_bytes
     (snd (UnfairRuntime.trace_tcp_rcv IF_ARM LITTLE_ENDIAN Samples.ack_mem
             Samples.tcp4_sock (Some (Samples.ack_skb LITTLE_ENDIAN)) []))
   = [0] /\
   map UnfairRuntime.thl_bytes
     (snd (UnfairRuntime.trace_tcp_rcv ELIF_ARM LITTLE_ENDIAN Samples.ack_mem
             Samples.tcp4_sock (Some (Samples.ack_skb LITTLE_ENDIAN)) []))
   = [40]).
Proof. repeat split; vm_compute; reflexivity. Qed.

(** C2, evaluated at the pure acknowledgment whose first IP byte is 0x45
    (version 4, IHL nibble 5) on a big-endian host built with the kernel's
    byte-order headers: there [__BYTE_ORDER] and [__LITTLE_ENDIAN] are both
    undefined, the first arm is compiled, and the IP header length recorded
    is 16, four times the version, where the specification asks for
    5 x 4 = 20. The same frame on a little-endian host built with the same
    headers, which compiles the second arm, is recorded with 20: the
    extraction depends on the host. Both source files agree. *)
Theorem ihl_of_nibble_five_first_arm :
  (byte_order_arm (Kernel.byteorder_macros BIG_ENDIAN) = Some IF_ARM /\
   byte_order_arm (Kernel.byteorder_macros LITTLE_ENDIAN) = Some ELIF_ARM) /\
  wire_ihl Samples.ack_mem (Samples.ack_skb BIG_ENDIAN) = 5 /\
  (map Runtime.ihl_b
     (snd (Runtime.trace_tcp_rcv IF_ARM BIG_ENDIAN Samples.ack_mem
             Samples.tcp4_sock (Some (Samples.ack_skb BIG_ENDIAN)) []))
   = [16] /\
   map Runtime.ihl_b
     (snd (Runtime.trace_tcp_rcv ELIF_ARM LITTLE_ENDIAN Samples.ack_mem
             Samples.tcp4_sock (Some (Samples.ack_skb LITTLE_ENDIAN)) []))
   = [20]) /\
  (map UnfairRuntime.ihl_bytes
     (snd (UnfairRuntime.trace_tcp_rcv IF_ARM BIG_ENDIAN Samples.ack_mem
             Samples.tcp4_sock (Some (Samples.ack_skb BIG_ENDIAN)) []))
   = [16] /\
   map UnfairRuntime.ihl_bytes
     (snd (UnfairRuntime.trace_tcp_rcv ELIF_ARM LITTLE_ENDIAN Samples.ack_mem
             Samples.tcp4_sock (Some (Samples.ack_skb LITTLE_ENDIAN)) []))
   = [20]).
Proof. repeat split; vm_compute; reflexivity. Qed.

(** C3 as stated fails: the frame whose total length field is 10 is
    submitted under either arm; its decoded header lengths are 16 and 0
    under the first arm, 20 and 40 under the second, and the payload length
    recorded is 4294967290, respectively 4294967246: neither 0 nor a dropped
    frame. *)
Lemma payload_of_short_total_wraps :
  (submits (Runtime.trace_tcp_rcv IF_ARM LITTLE_ENDIAN Samples.short_mem
              Samples.tcp4_sock (Some (Samples.short_skb LITTLE_ENDIAN)) [])
           [] (Samples.short_pkt_rt IF_ARM LITTLE_ENDIAN) /\
   Runtime.total_b (Samples.short_pkt_rt IF_ARM LITTLE_ENDIAN)
   < Runtime.ihl_b (Samples.short_pkt_rt IF_ARM LITTLE_ENDIAN)
     + Runtime.thl_b (Samples.short_pkt_rt IF_ARM LITTLE_ENDIAN) /\
   Runtime.payload_b (Samples.short_pkt_rt IF_ARM LITTLE_ENDIAN)
   = 4294967290) /\
  (submits (Runtime.trace_tcp_rcv ELIF_ARM LITTLE_ENDIAN Samples.short_mem
              Samples.tcp4_sock (Some (Samples.short_skb LITTLE_ENDIAN)) [])
           [] (Samples.short_pkt_rt ELIF_ARM LITTLE_ENDIAN) /\
   Runtime.total_b (Samples.short_pkt_rt ELIF_ARM LITTLE_ENDIAN)
   < Runtime.ihl_b (Samples.short_pkt_rt ELIF_ARM LITTLE_ENDIAN)
     + Runtime.thl_b (Samples.short_pkt_rt ELIF_ARM LITTLE_ENDIAN) /\
   Runtime.payload_b (Samples.short_pkt_rt ELIF_ARM LITTLE_ENDIAN)
   = 4294967246) /\
  (submits (UnfairRuntime.trace_tcp_rcv IF_ARM LITTLE_ENDIAN
              Samples.short_mem Samples.tcp4_sock
              (Some (Samples.short_skb LITTLE_ENDIAN)) [])
           [] (Samples.short_pkt_un IF_ARM LITTLE_ENDIAN) /\
   UnfairRuntime.total_bytes (Samples.short_pkt_un IF_ARM LITTLE_ENDIAN)
   < UnfairRuntime.ihl_bytes (Samples.short_pkt_un IF_ARM LITTLE_ENDIAN)
     + UnfairRuntime.thl_bytes (Samples.short_pkt_un IF_ARM LITTLE_ENDIAN) /\
   UnfairRuntime.payload_bytes (Samples.short_pkt_un IF_ARM LITTLE_ENDIAN)
   = 4294967290) /\
  (submits (UnfairRuntime.trace_tcp_rcv ELIF_ARM LITTLE_ENDIAN
              Samples.short_mem Samples.tcp4_sock
              (Some (Samples.short_skb LITTLE_ENDIAN)) [])
           [] (Samples.short_pkt_un ELIF_ARM LITTLE_ENDIAN) /\
   UnfairRuntime.total_bytes (Samples.short_pkt_un ELIF_ARM LITTLE_ENDIAN)
   < UnfairRuntime.ihl_bytes (Samples.short_pkt_un ELIF_ARM LITTLE_ENDIAN)
     + UnfairRuntime.thl_bytes (Samples.short_pkt_un ELIF_ARM LITTLE_ENDIAN)
   /\
   UnfairRuntime.payload_bytes (Samples.short_pkt_un ELIF_ARM LITTLE_ENDIAN)
   = 4294967246).
Proof. repeat split; vm_compute; reflexivity. Qed.

(** C3, amended: a frame that is not null, is declared IPv4 and whose IP
    protocol field is TCP (with, in src/runtime, a socket of family AF_INET)
    and whose decoded total length is strictly less than the sum of its
    decoded IP and TCP header lengths is not dropped and its payload length
    is not clamped: a record is submitted, it carries the three decoded
    lengths, and its payload length is the unsigned 32-bit wrap-around of
    the difference, 2^32 + total - IP header length - TCP header length. *)
Theorem payload_wraps_below_header_sum (arm : cpp_arm) (bo : byte_order)
    (m : Kernel.kmem) (sk : Kernel.sock) (s : Kernel.sk_buff) :
  ipv4_tcp_frame bo m s ->
  decoded_total m s < decoded_ihl arm m s + decoded_thl arm m s ->
  (forall pkts,
      Kernel.skc_family sk = Kernel.AF_INET ->
      exists r,
        submits (Runtime.trace_tcp_rcv arm bo m sk (Some s) pkts) pkts r /\
        Runtime.total_b r = decoded_total m s /\
        Runtime.ihl_b r = decoded_ihl arm m s /\
        Runtime.thl_b r = decoded_thl arm m s /\
        Runtime.payload_b r
        = 2 ^ 32 + Runtime.total_b r - Runtime.ihl_b r - Runtime.thl_b r) /\
  (forall pkts,
      exists r,
        submits (UnfairRuntime.trace_tcp_rcv arm bo m sk (Some s) pkts)
                pkts r /\
        UnfairRuntime.total_bytes r = decoded_total m s /\
        UnfairRuntime.ihl_bytes r = decoded_ihl arm m s /\
        UnfairRuntime.thl_bytes r = decoded_thl arm m s /\
        UnfairRuntime.payload_bytes r
        = 2 ^ 32 + UnfairRuntime.total_bytes r - UnfairRuntime.ihl_bytes r
          - UnfairRuntime.thl_bytes r).
Proof.
  intros Hframe Hlt.
  destruct (decoded_ranges arm m s) as (Ht & [Hi _] & [Hh _]).
  apply Z.leb_gt in Hlt.
  split; intros pkts.
  - intros Hfam.
    destruct (rt_accepts arm bo m sk s pkts Hfam Hframe) as [r Hr].
    destruct (rt_decoded arm bo m sk s pkts r Hr) as (Et & Ei & Eh & Ep).
    exists r. repeat split; try assumption.
    rewrite Ep, Et, Ei, Eh, payload_arith by assumption.
    rewrite Hlt. reflexivity.
  - destruct (un_accepts arm bo m sk s pkts Hframe) as [r Hr].
    destruct (un_decoded arm bo m sk s pkts r Hr) as (Et & Ei & Eh & Ep).
    exists r. repeat split; try assumption.
    rewrite Ep, Et, Ei, Eh, payload_arith by assumption.
    rewrite Hlt. reflexivity.
Qed.

Lemma payload_wraps_below_header_sum_witness :
  (exists r,
      submits (Runtime.trace_tcp_rcv ELIF_ARM LITTLE_ENDIAN Samples.short_mem
                 Samples.tcp4_sock (Some (Samples.short_skb LITTLE_ENDIAN))
                 []) [] r /\
      Runtime.total_b r = 10 /\ Runtime.ihl_b r = 20 /\
      Runtime.thl_b r = 40 /\
      Runtime.payload_b r
      = 2 ^ 32 + Runtime.total_b r - Runtime.ihl_b r - Runtime.thl_b r) /\
  (exists r,
      submits (UnfairRuntime.trace_tcp_rcv ELIF_ARM LITTLE_ENDIAN
                 Samples.short_mem Samples.tcp4_sock
                 (Some (Samples.short_skb LITTLE_ENDIAN)) []) [] r /\
      UnfairRuntime.total_bytes r = 10 /\ UnfairRuntime.ihl_bytes r = 20 /\
      UnfairRuntime.thl_bytes r = 40 /\
      UnfairRuntime.payload_bytes r
      = 2 ^ 32 + UnfairRuntime.total_bytes r - UnfairRuntime.ihl_bytes r
        - UnfairRuntime.thl_bytes r).
Proof.
  assert (Hframe : ipv4_tcp_frame LITTLE_ENDIAN Samples.short_mem
                     (Samples.short_skb LITTLE_ENDIAN))
    by (split; vm_compute; reflexivity).
  assert (Hlt : decoded_total Samples.short_mem
                  (Samples.short_skb LITTLE_ENDIAN)
                < decoded_ihl ELIF_ARM Samples.short_mem
                    (Samples.short_skb LITTLE_ENDIAN)
                  + decoded_thl ELIF_ARM Samples.short_mem
                      (Samples.short_skb LITTLE_ENDIAN))
    by (vm_compute; reflexivity).
  destruct (payload_wraps_below_header_sum ELIF_ARM LITTLE_ENDIAN
              Samples.short_mem Samples.tcp4_sock
              (Samples.short_skb LITTLE_ENDIAN) Hframe Hlt) as [Hrt Hun].
  split.
  - exact (Hrt [] eq_refl).
  - exact (Hun []).
Defined.

(** C4, evaluated at the capture time stamp 1000000500 ns: the capture time
    recorded is 1000, the time stamp divided by 1000000, where division by
    1000 gives 1000000 microseconds. Both source files agree, under either
    arm. *)
Theorem time_us_of_one_second (arm : cpp_arm) :
  Kernel.tstamp (Samples.ack_skb LITTLE_ENDIAN) = 1000000500 /\
  Z.quot 1000000500 1000 = 1000000 /\
  map Runtime.time_us
    (snd (Runtime.trace_tcp_rcv arm LITTLE_ENDIAN Samples.ack_mem
            Samples.tcp4_sock (Some (Samples.ack_skb LITTLE_ENDIAN)) []))
  = [1000] /\
  map UnfairRuntime.time_us
    (snd (UnfairRuntime.trace_tcp_rcv arm LITTLE_ENDIAN Samples.ack_mem
            Samples.tcp4_sock (Some (Samples.ack_skb LITTLE_ENDIAN)) []))
  = [1000].
Proof. destruct arm; repeat split; vm_compute; reflexivity. Qed.

(** C5 as stated fails: of this frame only 24 bytes were captured, so its
    20-byte IP header and its 20-byte TCP header both run past the buffer,
    and yet a record is submitted, under either arm. *)
Lemma truncated_frame_is_submitted :
  ip_header_truncated Samples.short_mem (Samples.short_skb LITTLE_ENDIAN) /\
  tcp_header_truncated Samples.short_mem (Samples.short_skb LITTLE_ENDIAN) /\
  (Runtime.trace_tcp_rcv IF_ARM LITTLE_ENDIAN Samples.short_mem
     Samples.tcp4_sock (Some (Samples.short_skb LITTLE_ENDIAN)) []
   = (0, [Samples.short_pkt_rt IF_ARM LITTLE_ENDIAN]) /\
   Runtime.trace_tcp_rcv ELIF_ARM LITTLE_ENDIAN Samples.short_mem
     Samples.tcp4_sock (Some (Samples.short_skb LITTLE_ENDIAN)) []
   = (0, [Samples.short_pkt_rt ELIF_ARM LITTLE_ENDIAN])) /\
  (UnfairRuntime.trace_tcp_rcv IF_ARM LITTLE_ENDIAN Samples.short_mem
     Samples.tcp4_sock (Some (Samples.short_skb LITTLE_ENDIAN)) []
   = (0, [Samples.short_pkt_un IF_ARM LITTLE_ENDIAN]) /\
   UnfairRuntime.trace_tcp_rcv ELIF_ARM LITTLE_ENDIAN Samples.short_mem
     Samples.tcp4_sock (Some (Samples.short_skb LITTLE_ENDIAN)) []
   = (0, [Samples.short_pkt_un ELIF_ARM LITTLE_ENDIAN])).
Proof. repeat split; vm_compute; reflexivity. Qed.

(** C5, amended: a frame whose declared IP or TCP header length exceeds the
    captured bytes is not rejected for it. If it is declared IPv4 and its IP
    protocol field is TCP (and, in src/runtime, the socket family is
    AF_INET) a record is submitted; and the extent of the captured bytes is
    never consulted: the call does the same for any other extent. *)
Theorem truncated_frames_are_not_rejected (arm : cpp_arm) (bo : byte_order)
    (m : Kernel.kmem) (sk : Kernel.sock) (s : Kernel.sk_buff) :
  ipv4_tcp_frame bo m s ->
  ip_header_truncated m s \/ tcp_header_truncated m s ->
  (forall pkts,
      Kernel.skc_family sk = Kernel.AF_INET ->
      exists r,
        submits (Runtime.trace_tcp_rcv arm bo m sk (Some s) pkts) pkts r)
  /\
  (forall pkts,
      exists r,
        submits (UnfairRuntime.trace_tcp_rcv arm bo m sk (Some s) pkts)
                pkts r)
  /\
  (forall t pkts,
      Runtime.trace_tcp_rcv arm bo m sk (Some (with_tail s t)) pkts
      = Runtime.trace_tcp_rcv arm bo m sk (Some s) pkts)
  /\
  (forall t pkts,
      UnfairRuntime.trace_tcp_rcv arm bo m sk (Some (with_tail s t)) pkts
      = UnfairRuntime.trace_tcp_rcv arm bo m sk (Some s) pkts).
Proof.
  intros Hframe _. repeat split.
  - intros pkts Hfam. exact (rt_accepts arm bo m sk s pkts Hfam Hframe).
  - intros pkts. exact (un_accepts arm bo m sk s pkts Hframe).
Qed.

Lemma truncated_frames_are_not_rejected_witness :
  (exists r,
      submits (Runtime.trace_tcp_rcv ELIF_ARM LITTLE_ENDIAN Samples.short_mem
                 Samples.tcp4_sock (Some (Samples.short_skb LITTLE_ENDIAN))
                 []) [] r) /\
  (exists r,
      submits (UnfairRuntime.trace_tcp_rcv ELIF_ARM LITTLE_ENDIAN
                 Samples.short_mem Samples.tcp4_sock
                 (Some (Samples.short_skb LITTLE_ENDIAN)) []) [] r).
Proof.
  assert (Hframe : ipv4_tcp_frame LITTLE_ENDIAN Samples.short_mem
                     (Samples.short_skb LITTLE_ENDIAN))
    by (split; vm_compute; reflexivity).
  assert (Htrunc : ip_header_truncated Samples.short_mem
                     (Samples.short_skb LITTLE_ENDIAN))
    by (vm_compute; reflexivity).
  destruct (truncated_frames_are_not_rejected ELIF_ARM LITTLE_ENDIAN
              Samples.short_mem Samples.tcp4_sock
              (Samples.short_skb LITTLE_ENDIAN)
              Hframe (or_introl Htrunc)) as (Hrt & Hun & _).
  split.
  - apply Hrt. reflexivity.
  - apply Hun.
Defined.

(** C6 as stated fails: this frame's header-length nibbles are all 3, so
    under either arm the IP header length decodes to 12 and the TCP header
    length to 0 (first arm) or 12 (second arm), all below 20, and a record
    carrying them is submitted. *)
Lemma header_lengths_below_twenty_are_submitted :
  (wire_ihl Samples.runt_mem (Samples.ack_skb LITTLE_ENDIAN) = 3 /\
   wire_doff Samples.runt_mem (Samples.ack_skb LITTLE_ENDIAN) = 3) /\
  (Runtime.trace_tcp_rcv IF_ARM LITTLE_ENDIAN Samples.runt_mem
     Samples.tcp4_sock (Some (Samples.ack_skb LITTLE_ENDIAN)) []
   = (0, [Samples.runt_pkt_rt IF_ARM]) /\
   Runtime.ihl_b (Samples.runt_pkt_rt IF_ARM) = 12 /\
   Runtime.thl_b (Samples.runt_pkt_rt IF_ARM) = 0) /\
  (Runtime.trace_tcp_rcv ELIF_ARM LITTLE_ENDIAN Samples.runt_mem
     Samples.tcp4_sock (Some (Samples.ack_skb LITTLE_ENDIAN)) []
   = (0, [Samples.runt_pkt_rt ELIF_ARM]) /\
   Runtime.ihl_b (Samples.runt_pkt_rt ELIF_ARM) = 12 /\
   Runtime.thl_b (Samples.runt_pkt_rt ELIF_ARM) = 12) /\
  (UnfairRuntime.trace_tcp_rcv IF_ARM LITTLE_ENDIAN Samples.runt_mem
     Samples.tcp4_sock (Some (Samples.ack_skb LITTLE_ENDIAN)) []
   = (0, [Samples.runt_pkt_un IF_ARM]) /\
   UnfairRuntime.ihl_bytes (Samples.runt_pkt_un IF_ARM) = 12 /\
   UnfairRuntime.thl_bytes (Samples.runt_pkt_un IF_ARM) = 0) /\
  (UnfairRuntime.trace_tcp_rcv ELIF_ARM LITTLE_ENDIAN Samples.runt_mem
     Samples.tcp4_sock (Some (Samples.ack_skb LITTLE_ENDIAN)) []
   = (0, [Samples.runt_pkt_un ELIF_ARM]) /\
   UnfairRuntime.ihl_bytes (Samples.runt_pkt_un ELIF_ARM) = 12 /\
   UnfairRuntime.thl_bytes (Samples.runt_pkt_un ELIF_ARM) = 12).
Proof. repeat split; vm_compute; reflexivity. Qed.

(** C6, amended: the decoded header lengths are not validated. A frame that
    is not null, is declared IPv4 and whose IP protocol field is TCP (with,
    in src/runtime, a socket of family AF_INET) yields a record whatever
    they are; the record carries the decoded IP and TCP header lengths, and
    these are multiples of 4 anywhere in [0, 60]. *)
Theorem header_lengths_are_not_validated (arm : cpp_arm) (bo : byte_order)
    (m : Kernel.kmem) (sk : Kernel.sock) (s : Kernel.sk_buff) :
  ipv4_tcp_frame bo m s ->
  (forall pkts,
      Kernel.skc_family sk = Kernel.AF_INET ->
      exists r,
        submits (Runtime.trace_tcp_rcv arm bo m sk (Some s) pkts) pkts r /\
        (Runtime.ihl_b r = decoded_ihl arm m s /\
         0 <= Runtime.ihl_b r <= 60 /\ Runtime.ihl_b r mod 4 = 0) /\
        (Runtime.thl_b r = decoded_thl arm m s /\
         0 <= Runtime.thl_b r <= 60 /\ Runtime.thl_b r mod 4 = 0))
  /\
  (forall pkts,
      exists r,
        submits (UnfairRuntime.trace_tcp_rcv arm bo m sk (Some s) pkts)
                pkts r /\
        (UnfairRuntime.ihl_bytes r = decoded_ihl arm m s /\
         0 <= UnfairRuntime.ihl_bytes r <= 60 /\
         UnfairRuntime.ihl_bytes r mod 4 = 0) /\
        (UnfairRuntime.thl_bytes r = decoded_thl arm m s /\
         0 <= UnfairRuntime.thl_bytes r <= 60 /\
         UnfairRuntime.thl_bytes r mod 4 = 0)).
Proof.
  intros Hframe.
  destruct (decoded_ranges arm m s) as (_ & [Hi Hi4] & [Hh Hh4]).
  split; intros pkts.
  - intros Hfam.
    destruct (rt_accepts arm bo m sk s pkts Hfam Hframe) as [r Hr].
    destruct (rt_decoded arm bo m sk s pkts r Hr) as (_ & Ei & Eh & _).
    exists r. rewrite Ei, Eh. repeat split; assumption || apply Hi || apply Hh.
  - destruct (un_accepts arm bo m sk s pkts Hframe) as [r Hr].
    destruct (un_decoded arm bo m sk s pkts r Hr) as (_ & Ei & Eh & _).
    exists r. rewrite Ei, Eh. repeat split; assumption || apply Hi || apply Hh.
Qed.

Lemma header_lengths_are_not_validated_witness :
  (exists r,
      submits (Runtime.trace_tcp_rcv ELIF_ARM LITTLE_ENDIAN Samples.runt_mem
                 Samples.tcp4_sock (Some (Samples.ack_skb LITTLE_ENDIAN)) [])
              [] r /\
      (Runtime.ihl_b r = 12 /\
       0 <= Runtime.ihl_b r <= 60 /\ Runtime.ihl_b r mod 4 = 0) /\
      (Runtime.thl_b r = 12 /\
       0 <= Runtime.thl_b r <= 60 /\ Runtime.thl_b r mod 4 = 0)) /\
  (exists r,
      submits (UnfairRuntime.trace_tcp_rcv ELIF_ARM LITTLE_ENDIAN
                 Samples.runt_mem Samples.tcp4_sock
                 (Some (Samples.ack_skb LITTLE_ENDIAN)) [])
              [] r /\
      (UnfairRuntime.ihl_bytes r = 12 /\
       0 <= UnfairRuntime.ihl_bytes r <= 60 /\
       UnfairRuntime.ihl_bytes r mod 4 = 0) /\
      (UnfairRuntime.thl_bytes r = 12 /\
       0 <= UnfairRuntime.thl_bytes r <= 60 /\
       UnfairRuntime.thl_bytes r mod 4 = 0)).
Proof.
  assert (Hframe : ipv4_tcp_frame LITTLE_ENDIAN Samples.runt_mem
                     (Samples.ack_skb LITTLE_ENDIAN))
    by (split; vm_compute; reflexivity).
  destruct (header_lengths_are_not_validated ELIF_ARM LITTLE_ENDIAN
              Samples.runt_mem Samples.tcp4_sock
              (Samples.ack_skb LITTLE_ENDIAN) Hframe) as (Hrt & Hun).
  split.
  - exact (Hrt [] eq_refl).
  - exact (Hun []).
Defined.

(** C7, evaluated on a little-endian host at the pure acknowledgment whose
    sequence-number field holds the bytes 00 00 00 01: the ports are recorded
    in host order (8080 and 443), but the sequence number is recorded as
    16777216, the field as a little-endian host reads it; the 32-bit swap
    that would give 1 is not applied. Both source files agree, under either
    arm. *)
Theorem seq_of_one_little_endian (arm : cpp_arm) :
  Kernel.ntohl LITTLE_ENDIAN 16777216 = 1 /\
  (let out := snd (Runtime.trace_tcp_rcv arm LITTLE_ENDIAN Samples.ack_mem
                     Samples.tcp4_sock (Some (Samples.ack_skb LITTLE_ENDIAN))
                     []) in
   map Runtime.sport out = [8080] /\ map Runtime.dport out = [443] /\
   map Runtime.seq out = [16777216]) /\
  (let out := snd (UnfairRuntime.trace_tcp_rcv arm LITTLE_ENDIAN
                     Samples.ack_mem Samples.tcp4_sock
                     (Some (Samples.ack_skb LITTLE_ENDIAN)) []) in
   map UnfairRuntime.sport out = [8080] /\
   map UnfairRuntime.dport out = [443] /\
   map UnfairRuntime.seq out = [16777216]).
Proof. destruct arm; repeat split; vm_compute; reflexivity. Qed.



(** C9: when the frame reference is null, or the frame's declared protocol
    is not IPv4, or the protocol field of its IP header is not TCP, the
    handler returns 0 and the perf output is left as it was. *)
Theorem filtered_frames_submit_nothing (arm : cpp_arm) (bo : byte_order)
    (m : Kernel.kmem) (sk : Kernel.sock) (skb : option Kernel.sk_buff)
    (pkts : Runtime.perf_output) (pkts' : UnfairRuntime.perf_output) :
  skb = None \/
  (exists s, skb = Some s /\
             Kernel.protocol s <> Kernel.htons bo Kernel.ETH_P_IP) \/
  (exists s, skb = Some s /\
             Kernel.load_u8 m (Kernel.head s + Kernel.network_header s + 9)
             <> Kernel.IPPROTO_TCP) ->
  Runtime.trace_tcp_rcv arm bo m sk skb pkts = (0, pkts) /\
  submits_nothing (Runtime.trace_tcp_rcv arm bo m sk skb pkts) pkts /\
  UnfairRuntime.trace_tcp_rcv arm bo m sk skb pkts' = (0, pkts') /\
  submits_nothing (UnfairRuntime.trace_tcp_rcv arm bo m sk skb pkts') pkts'.
Proof.
  intros Hrej.
  assert (Hrt : Runtime.trace_tcp_rcv arm bo m sk skb pkts = (0, pkts)).
  { unfold Runtime.trace_tcp_rcv. cbv zeta.
    destruct Hrej as [-> | [(s & -> & Hp) | (s & -> & Hp)]].
    - rewrite orb_true_r. reflexivity.
    - apply Z.eqb_neq in Hp. rewrite Hp.
      destruct (negb _ || _); reflexivity.
    - change (Runtime.skb_to_iphdr s + Kernel.iphdr.off_protocol)
        with (Kernel.head s + Kernel.network_header s + 9).
      apply Z.eqb_neq in Hp. rewrite Hp.
      destruct (negb _ || _); [reflexivity|].
      destruct (negb (Kernel.protocol s =? _)); reflexivity. }
  assert (Hun : UnfairRuntime.trace_tcp_rcv arm bo m sk skb pkts'
                = (0, pkts')).
  { unfold UnfairRuntime.trace_tcp_rcv. cbv zeta.
    destruct Hrej as [-> | [(s & -> & Hp) | (s & -> & Hp)]].
    - reflexivity.
    - apply Z.eqb_neq in Hp. rewrite Hp. reflexivity.
    - change (UnfairRuntime.skb_to_iphdr s + Kernel.iphdr.off_protocol)
        with (Kernel.head s + Kernel.network_header s + 9).
      apply Z.eqb_neq in Hp. rewrite Hp. cbn [Kernel.is_null].
      destruct (negb (Kernel.protocol s =? _)); reflexivity. }
  unfold submits_nothing. rewrite Hrt, Hun. repeat split.
Qed.

Lemma filtered_frames_submit_nothing_witness :
  (Runtime.trace_tcp_rcv ELIF_ARM LITTLE_ENDIAN Samples.ack_mem
     Samples.tcp4_sock None [Samples.ack_pkt_rt ELIF_ARM LITTLE_ENDIAN]
   = (0, [Samples.ack_pkt_rt ELIF_ARM LITTLE_ENDIAN]) /\
   UnfairRuntime.trace_tcp_rcv ELIF_ARM LITTLE_ENDIAN Samples.ack_mem
     Samples.tcp4_sock None [Samples.ack_pkt_un ELIF_ARM LITTLE_ENDIAN]
   = (0, [Samples.ack_pkt_un ELIF_ARM LITTLE_ENDIAN])) /\
  (Runtime.trace_tcp_rcv ELIF_ARM LITTLE_ENDIAN Samples.ack_mem
     Samples.tcp4_sock (Some (Samples.ack_skb BIG_ENDIAN)) [] = (0, []) /\
   UnfairRuntime.trace_tcp_rcv ELIF_ARM LITTLE_ENDIAN Samples.ack_mem
     Samples.tcp4_sock (Some (Samples.ack_skb BIG_ENDIAN)) [] = (0, [])) /\
  (Runtime.trace_tcp_rcv ELIF_ARM LITTLE_ENDIAN Samples.udp_mem
     Samples.tcp4_sock (Some (Samples.ack_skb LITTLE_ENDIAN)) [] = (0, []) /\
   UnfairRuntime.trace_tcp_rcv ELIF_ARM LITTLE_ENDIAN Samples.udp_mem
     Samples.tcp4_sock (Some (Samples.ack_skb LITTLE_ENDIAN)) [] = (0, [])).
Proof.
  split; [|split].
  - destruct (filtered_frames_submit_nothing ELIF_ARM LITTLE_ENDIAN
                Samples.ack_mem Samples.tcp4_sock None
                [Samples.ack_pkt_rt ELIF_ARM LITTLE_ENDIAN]
                [Samples.ack_pkt_un ELIF_ARM LITTLE_ENDIAN]
                (or_introl eq_refl))
      as (Hrt & _ & Hun & _).
    split; [exact Hrt | exact Hun].
  - destruct (filtered_frames_submit_nothing ELIF_ARM LITTLE_ENDIAN
                Samples.ack_mem Samples.tcp4_sock
                (Some (Samples.ack_skb BIG_ENDIAN)) [] [])
      as (Hrt & _ & Hun & _).
    + right; left. exists (Samples.ack_skb BIG_ENDIAN).
      split; [reflexivity | vm_compute; discriminate].
    + split; [exact Hrt | exact Hun].
  - destruct (filtered_frames_submit_nothing ELIF_ARM LITTLE_ENDIAN
                Samples.udp_mem Samples.tcp4_sock
                (Some (Samples.ack_skb LITTLE_ENDIAN)) [] [])
      as (Hrt & _ & Hun & _).
    + right; right. exists (Samples.ack_skb LITTLE_ENDIAN).
      split; [reflexivity | vm_compute; discriminate].
    + split; [exact Hrt | exact Hun].
Defined.

(** C10: a frame that is not null, is declared IPv4 and whose IP protocol
    field is TCP (with, in src/runtime, a socket of family AF_INET) yields a
    record whose smoothed RTT is the [srtt_us] of the connection shifted
    right by 3 bits, which is its quotient by 8 rounded toward zero, and
    whose timestamp value and echo are those of the connection, unchanged. *)
Theorem srtt_is_scaled_and_timestamps_copied (arm : cpp_arm)
    (bo : byte_order) (m : Kernel.kmem) (sk : Kernel.sock)
    (s : Kernel.sk_buff) :
  Kernel.sock_wf sk ->
  ipv4_tcp_frame bo m s ->
  (forall pkts,
      Kernel.skc_family sk = Kernel.AF_INET ->
      exists r,
        submits (Runtime.trace_tcp_rcv arm bo m sk (Some s) pkts) pkts r /\
        Runtime.srtt_us r = Z.shiftr (Kernel.srtt_us sk) 3 /\
        Runtime.srtt_us r = Z.quot (Kernel.srtt_us sk) 8 /\
        Runtime.tsval r = Kernel.rcv_tsval (Kernel.rx_opt sk) /\
        Runtime.tsecr r = Kernel.rcv_tsecr (Kernel.rx_opt sk)) /\
  (forall pkts,
      exists r,
        submits (UnfairRuntime.trace_tcp_rcv arm bo m sk (Some s) pkts)
                pkts r /\
        UnfairRuntime.srtt_us r = Z.shiftr (Kernel.srtt_us sk) 3 /\
        UnfairRuntime.srtt_us r = Z.quot (Kernel.srtt_us sk) 8 /\
        UnfairRuntime.tsval r = Kernel.rcv_tsval (Kernel.rx_opt sk) /\
        UnfairRuntime.tsecr r = Kernel.rcv_tsecr (Kernel.rx_opt sk)).
Proof.
  intros (_ & Hsrtt & _) Hframe.
  assert (Hq : Z.shiftr (Kernel.srtt_us sk) 3 = Z.quot (Kernel.srtt_us sk) 8).
  { rewrite Z.shiftr_div_pow2 by lia. change (2 ^ 3) with 8.
    symmetry. apply Z.quot_div_nonneg; lia. }
  split; intros pkts.
  - intros Hfam.
    destruct (rt_accepts arm bo m sk s pkts Hfam Hframe) as [r Hr].
    destruct (rt_connection arm bo m sk s pkts r Hr) as (Es & Ev & Ee).
    exists r. rewrite Es. repeat split; assumption.
  - destruct (un_accepts arm bo m sk s pkts Hframe) as [r Hr].
    destruct (un_connection arm bo m sk s pkts r Hr) as (Es & Ev & Ee).
    exists r. rewrite Es. repeat split; assumption.
Qed.

Lemma srtt_is_scaled_and_timestamps_copied_witness :
  (exists r,
      submits (Runtime.trace_tcp_rcv ELIF_ARM LITTLE_ENDIAN Samples.ack_mem
                 Samples.tcp4_sock (Some (Samples.ack_skb LITTLE_ENDIAN)) [])
              [] r /\
      Runtime.srtt_us r = Z.shiftr 8005 3 /\
      Runtime.srtt_us r = Z.quot 8005 8 /\
      Runtime.tsval r = 111 /\ Runtime.tsecr r = 222) /\
  (exists r,
      submits (UnfairRuntime.trace_tcp_rcv ELIF_ARM LITTLE_ENDIAN
                 Samples.ack_mem Samples.tcp4_sock
                 (Some (Samples.ack_skb LITTLE_ENDIAN)) [])
              [] r /\
      UnfairRuntime.srtt_us r = Z.shiftr 8005 3 /\
      UnfairRuntime.srtt_us r = Z.quot 8005 8 /\
      UnfairRuntime.tsval r = 111 /\ UnfairRuntime.tsecr r = 222).
Proof.
  assert (Hwf : Kernel.sock_wf Samples.tcp4_sock)
    by (repeat split; vm_compute; first [reflexivity | discriminate]).
  assert (Hframe : ipv4_tcp_frame LITTLE_ENDIAN Samples.ack_mem
                     (Samples.ack_skb LITTLE_ENDIAN))
    by (split; vm_compute; reflexivity).
  destruct (srtt_is_scaled_and_timestamps_copied ELIF_ARM LITTLE_ENDIAN
              Samples.ack_mem Samples.tcp4_sock
              (Samples.ack_skb LITTLE_ENDIAN) Hwf Hframe) as (Hrt & Hun).
  split.
  - exact (Hrt [] eq_refl).
  - exact (Hun []).
Defined.

(** ** Further properties of the handlers *)

(** The path a call took, read off the three tests that were false. *)
Ltac passed :=
  repeat match goal with
    | H : _ || _ = false |- _ => apply orb_false_iff in H; destruct H
    | H : negb _ = false |- _ => apply negb_false_iff in H
    | H : (_ =? _) = true |- _ => apply Z.eqb_eq in H
    end.

(** X1: a call submits a record exactly when the frame reference is not
    null, the frame is declared IPv4 and the protocol field of its IP header
    is TCP; src/runtime asks in addition that the socket be of family
    AF_INET, src/unfair/runtime does not look at the socket family. *)
Theorem record_submitted_iff_filter_passes (arm : cpp_arm) (bo : byte_order)
    (m : Kernel.kmem) (sk : Kernel.sock) (skb : option Kernel.sk_buff)
    (pkts : Runtime.perf_output) (pkts' : UnfairRuntime.perf_output) :
  ((exists r, submits (Runtime.trace_tcp_rcv arm bo m sk skb pkts) pkts r)
   <->
   (exists s, skb = Some s /\ Kernel.skc_family sk = Kernel.AF_INET /\
              ipv4_tcp_frame bo m s)) /\
  ((exists r,
       submits (UnfairRuntime.trace_tcp_rcv arm bo m sk skb pkts') pkts' r)
   <->
   (exists s, skb = Some s /\ ipv4_tcp_frame bo m s)).
Proof.
  split; split.
  - intros [r H]. submitted H; passed.
    all: eexists; repeat split; eassumption.
  - intros (s & -> & Hfam & Hframe).
    exact (rt_accepts arm bo m sk s pkts Hfam Hframe).
  - intros [r H]. submitted H; passed.
    eexists; repeat split; eassumption.
  - intros (s & -> & Hframe).
    exact (un_accepts arm bo m sk s pkts' Hframe).
Qed.

(** X2: a call returns 0, keeps every record submitted before it, in order,
    and appends at most one record, which does not depend on the earlier
    ones. *)
Theorem handler_appends_at_most_one_record (arm : cpp_arm) (bo : byte_order)
    (m : Kernel.kmem) (sk : Kernel.sock) (skb : option Kernel.sk_buff)
    (pkts : Runtime.perf_output) (pkts' : UnfairRuntime.perf_output) :
  (Runtime.trace_tcp_rcv arm bo m sk skb pkts
   = (0, pkts ++ snd (Runtime.trace_tcp_rcv arm bo m sk skb [])) /\
   (length (snd (Runtime.trace_tcp_rcv arm bo m sk skb [])) <= 1)%nat) /\
  (UnfairRuntime.trace_tcp_rcv arm bo m sk skb pkts'
   = (0, pkts' ++ snd (UnfairRuntime.trace_tcp_rcv arm bo m sk skb [])) /\
   (length (snd (UnfairRuntime.trace_tcp_rcv arm bo m sk skb [])) <= 1)%nat).
Proof.
  split.
  - unfold Runtime.trace_tcp_rcv, Runtime.perf_submit. cbv zeta.
    destruct (negb _ || _); [cbn; rewrite app_nil_r; auto|].
    destruct skb as [s|]; [|cbn; rewrite app_nil_r; auto].
    destruct (negb (Kernel.protocol s =? _));
      [cbn; rewrite app_nil_r; auto|].
    destruct (negb (Kernel.load_u8 m _ =? _));
      [cbn; rewrite app_nil_r; auto|].
    destruct arm; cbn [snd app length]; auto.
  - unfold UnfairRuntime.trace_tcp_rcv, UnfairRuntime.perf_submit. cbv zeta.
    destruct skb as [s|]; [|cbn; rewrite app_nil_r; auto].
    cbn [Kernel.is_null].
    destruct (negb (Kernel.protocol s =? _));
      [cbn; rewrite app_nil_r; auto|].
    destruct (negb (Kernel.load_u8 m _ =? _));
      [cbn; rewrite app_nil_r; auto|].
    cbn [snd app length]; auto.
Qed.

(** X3: on either kind of host and under either arm the ports and the total
    length of a record are the network-order (big-endian) values of the
    fields [source], [dest] and [tot_len] of the frame; and a frame that
    passes the filter does yield such a record. *)
Theorem ports_and_total_length_are_network_values (arm : cpp_arm)
    (bo : byte_order) (m : Kernel.kmem) (sk : Kernel.sock)
    (s : Kernel.sk_buff) :
  (forall pkts r,
      submits (Runtime.trace_tcp_rcv arm bo m sk (Some s) pkts) pkts r ->
      Runtime.sport r
      = Kernel.load_u16 BIG_ENDIAN m
          (Kernel.head s + Kernel.transport_header s) /\
      Runtime.dport r
      = Kernel.load_u16 BIG_ENDIAN m
          (Kernel.head s + Kernel.transport_header s + 2) /\
      Runtime.total_b r
      = Kernel.load_u16 BIG_ENDIAN m
          (Kernel.head s + Kernel.network_header s + 2)) /\
  (forall pkts r,
      submits (UnfairRuntime.trace_tcp_rcv arm bo m sk (Some s) pkts)
              pkts r ->
      UnfairRuntime.sport r
      = Kernel.load_u16 BIG_ENDIAN m
          (Kernel.head s + Kernel.transport_header s) /\
      UnfairRuntime.dport r
      = Kernel.load_u16 BIG_ENDIAN m
          (Kernel.head s + Kernel.transport_header s + 2) /\
      UnfairRuntime.total_bytes r
      = Kernel.load_u16 BIG_ENDIAN m
          (Kernel.head s + Kernel.network_header s + 2)) /\
  (ipv4_tcp_frame bo m s ->
   (forall pkts,
       Kernel.skc_family sk = Kernel.AF_INET ->
       exists r,
         submits (Runtime.trace_tcp_rcv arm bo m sk (Some s) pkts) pkts r) /\
   (forall pkts,
       exists r,
         submits (UnfairRuntime.trace_tcp_rcv arm bo m sk (Some s) pkts)
                 pkts r)).
Proof.
  split; [|split].
  - intros pkts r H; submitted H; fields.
    all: rewrite !ntohs_load_u16_be.
    all: unfold Runtime.skb_to_tcphdr, Kernel.tcphdr.off_source;
      rewrite Z.add_0_r.
    all: repeat split; reflexivity.
  - intros pkts r H; submitted H; fields.
    rewrite !ntohs_load_u16_be.
    unfold UnfairRuntime.skb_to_tcphdr, Kernel.tcphdr.off_source;
      rewrite Z.add_0_r.
    repeat split; reflexivity.
  - intros Hframe. split; intros pkts.
    + intros Hfam. exact (rt_accepts arm bo m sk s pkts Hfam Hframe).
    + exact (un_accepts arm bo m sk s pkts Hframe).
Qed.

Lemma ports_and_total_length_are_network_values_witness :
  (Runtime.sport (Samples.ack_pkt_rt ELIF_ARM LITTLE_ENDIAN) = 8080 /\
   Runtime.dport (Samples.ack_pkt_rt ELIF_ARM LITTLE_ENDIAN) = 443 /\
   Runtime.total_b (Samples.ack_pkt_rt ELIF_ARM LITTLE_ENDIAN) = 40) /\
  (UnfairRuntime.sport (Samples.ack_pkt_un IF_ARM BIG_ENDIAN) = 8080 /\
   UnfairRuntime.dport (Samples.ack_pkt_un IF_ARM BIG_ENDIAN) = 443 /\
   UnfairRuntime.total_bytes (Samples.ack_pkt_un IF_ARM BIG_ENDIAN) = 40).
Proof.
  split.
  - exact (proj1 (ports_and_total_length_are_network_values ELIF_ARM
                    LITTLE_ENDIAN Samples.ack_mem Samples.tcp4_sock
                    (Samples.ack_skb LITTLE_ENDIAN))
                 [] (Samples.ack_pkt_rt ELIF_ARM LITTLE_ENDIAN) eq_refl).
  - exact (proj1 (proj2 (ports_and_total_length_are_network_values IF_ARM
                           BIG_ENDIAN Samples.ack_mem Samples.tcp4_sock
                           (Samples.ack_skb BIG_ENDIAN)))
                 [] (Samples.ack_pkt_un IF_ARM BIG_ENDIAN) eq_refl).
Defined.

(** X4: the addresses and the sequence number of a record are the fields
    [saddr], [daddr] and [seq] as the host reads them, so they keep the wire
    order: [ntohl] applied to them gives, on either kind of host, the
    network-order values of the fields; and a frame that passes the filter
    does yield such a record. *)
Theorem ntohl_recovers_addresses_and_seq (arm : cpp_arm) (bo : byte_order)
    (m : Kernel.kmem) (sk : Kernel.sock) (s : Kernel.sk_buff) :
  (forall pkts r,
      submits (Runtime.trace_tcp_rcv arm bo m sk (Some s) pkts) pkts r ->
      Kernel.ntohl bo (Runtime.saddr r)
      = Kernel.load_u32 BIG_ENDIAN m
          (Kernel.head s + Kernel.network_header s + 12) /\
      Kernel.ntohl bo (Runtime.daddr r)
      = Kernel.load_u32 BIG_ENDIAN m
          (Kernel.head s + Kernel.network_header s + 16) /\
      Kernel.ntohl bo (Runtime.seq r)
      = Kernel.load_u32 BIG_ENDIAN m
          (Kernel.head s + Kernel.transport_header s + 4)) /\
  (forall pkts r,
      submits (UnfairRuntime.trace_tcp_rcv arm bo m sk (Some s) pkts)
              pkts r ->
      Kernel.ntohl bo (UnfairRuntime.saddr r)
      = Kernel.load_u32 BIG_ENDIAN m
          (Kernel.head s + Kernel.network_header s + 12) /\
      Kernel.ntohl bo (UnfairRuntime.daddr r)
      = Kernel.load_u32 BIG_ENDIAN m
          (Kernel.head s + Kernel.network_header s + 16) /\
      Kernel.ntohl bo (UnfairRuntime.seq r)
      = Kernel.load_u32 BIG_ENDIAN m
          (Kernel.head s + Kernel.transport_header s + 4)) /\
  (ipv4_tcp_frame bo m s ->
   (forall pkts,
       Kernel.skc_family sk = Kernel.AF_INET ->
       exists r,
         submits (Runtime.trace_tcp_rcv arm bo m sk (Some s) pkts) pkts r) /\
   (forall pkts,
       exists r,
         submits (UnfairRuntime.trace_tcp_rcv arm bo m sk (Some s) pkts)
                 pkts r)).
Proof.
  split; [|split].
  - intros pkts r H; submitted H; fields.
    all: rewrite !ntohl_load_u32; repeat split; reflexivity.
  - intros pkts r H; submitted H; fields.
    rewrite !ntohl_load_u32; repeat split; reflexivity.
  - intros Hframe. split; intros pkts.
    + intros Hfam. exact (rt_accepts arm bo m sk s pkts Hfam Hframe).
    + exact (un_accepts arm bo m sk s pkts Hframe).
Qed.

Lemma ntohl_recovers_addresses_and_seq_witness :
  (Kernel.ntohl LITTLE_ENDIAN
     (Runtime.saddr (Samples.ack_pkt_rt ELIF_ARM LITTLE_ENDIAN))
   = 167772161 /\
   Kernel.ntohl LITTLE_ENDIAN
     (Runtime.daddr (Samples.ack_pkt_rt ELIF_ARM LITTLE_ENDIAN))
   = 167772162 /\
   Kernel.ntohl LITTLE_ENDIAN
     (Runtime.seq (Samples.ack_pkt_rt ELIF_ARM LITTLE_ENDIAN)) = 1) /\
  (Kernel.ntohl LITTLE_ENDIAN
     (UnfairRuntime.saddr (Samples.ack_pkt_un ELIF_ARM LITTLE_ENDIAN))
   = 167772161 /\
   Kernel.ntohl LITTLE_ENDIAN
     (UnfairRuntime.daddr (Samples.ack_pkt_un ELIF_ARM LITTLE_ENDIAN))
   = 167772162 /\
   Kernel.ntohl LITTLE_ENDIAN
     (UnfairRuntime.seq (Samples.ack_pkt_un ELIF_ARM LITTLE_ENDIAN)) = 1).
Proof.
  split.
  - exact (proj1 (ntohl_recovers_addresses_and_seq ELIF_ARM LITTLE_ENDIAN
                    Samples.ack_mem Samples.tcp4_sock
                    (Samples.ack_skb LITTLE_ENDIAN))
                 [] (Samples.ack_pkt_rt ELIF_ARM LITTLE_ENDIAN) eq_refl).
  - exact (proj1 (proj2 (ntohl_recovers_addresses_and_seq ELIF_ARM
                           LITTLE_ENDIAN Samples.ack_mem Samples.tcp4_sock
                           (Samples.ack_skb LITTLE_ENDIAN)))
                 [] (Samples.ack_pkt_un ELIF_ARM LITTLE_ENDIAN) eq_refl).
Defined.

(** X5: in a build that compiles the [#elif] arm, a frame that passes the
    filter yields a record whose IP header length is four times the IHL
    nibble of the frame, so an IHL of 5 to 15 is recorded as 20 to 60
    bytes. *)
Theorem ihl_under_elif_arm (bo : byte_order) (m : Kernel.kmem)
    (sk : Kernel.sock) (s : Kernel.sk_buff) :
  ipv4_tcp_frame bo m s ->
  (forall pkts,
      Kernel.skc_family sk = Kernel.AF_INET ->
      exists r,
        submits (Runtime.trace_tcp_rcv ELIF_ARM bo m sk (Some s) pkts)
                pkts r /\
        Runtime.ihl_b r = 4 * wire_ihl m s /\
        (5 <= wire_ihl m s -> 20 <= Runtime.ihl_b r <= 60)) /\
  (forall pkts,
      exists r,
        submits (UnfairRuntime.trace_tcp_rcv ELIF_ARM bo m sk (Some s) pkts)
                pkts r /\
        UnfairRuntime.ihl_bytes r = 4 * wire_ihl m s /\
        (5 <= wire_ihl m s -> 20 <= UnfairRuntime.ihl_bytes r <= 60)).
Proof.
  intros Hframe.
  assert (Hn : 0 <= wire_ihl m s <= 15) by apply mod16_range.
  split; intros pkts.
  - intros Hfam.
    destruct (rt_accepts ELIF_ARM bo m sk s pkts Hfam Hframe) as [r Hr].
    destruct (rt_decoded ELIF_ARM bo m sk s pkts r Hr) as (_ & Ei & _).
    exists r. rewrite Ei. unfold decoded_ihl. fold (wire_ihl m s).
    repeat split; try assumption; lia.
  - destruct (un_accepts ELIF_ARM bo m sk s pkts Hframe) as [r Hr].
    destruct (un_decoded ELIF_ARM bo m sk s pkts r Hr) as (_ & Ei & _).
    exists r. rewrite Ei. unfold decoded_ihl. fold (wire_ihl m s).
    repeat split; try assumption; lia.
Qed.

Lemma ihl_under_elif_arm_witness :
  (exists r,
      submits (Runtime.trace_tcp_rcv ELIF_ARM LITTLE_ENDIAN Samples.ack_mem
                 Samples.tcp4_sock (Some (Samples.ack_skb LITTLE_ENDIAN)) [])
              [] r /\
      Runtime.ihl_b r = 4 * 5 /\
      (5 <= 5 -> 20 <= Runtime.ihl_b r <= 60)) /\
  (exists r,
      submits (UnfairRuntime.trace_tcp_rcv ELIF_ARM LITTLE_ENDIAN
                 Samples.ack_mem Samples.tcp4_sock
                 (Some (Samples.ack_skb LITTLE_ENDIAN)) [])
              [] r /\
      UnfairRuntime.ihl_bytes r = 4 * 5 /\
      (5 <= 5 -> 20 <= UnfairRuntime.ihl_bytes r <= 60)).
Proof.
  assert (Hframe : ipv4_tcp_frame LITTLE_ENDIAN Samples.ack_mem
                     (Samples.ack_skb LITTLE_ENDIAN))
    by (split; vm_compute; reflexivity).
  destruct (ihl_under_elif_arm LITTLE_ENDIAN Samples.ack_mem
              Samples.tcp4_sock (Samples.ack_skb LITTLE_ENDIAN) Hframe)
    as [Hrt Hun].
  split.
  - exact (Hrt [] eq_refl).
  - exact (Hun []).
Defined.

(** X6: in a build that compiles the first arm, a frame that passes the
    filter yields a record whose IP header length is four times the high
    nibble of the first byte of the IP header, the version: every frame of
    version 4 is recorded with an IP header length of 16, whatever its
    IHL. *)
Theorem ihl_under_if_arm (bo : byte_order) (m : Kernel.kmem)
    (sk : Kernel.sock) (s : Kernel.sk_buff) :
  ipv4_tcp_frame bo m s ->
  (forall pkts,
      Kernel.skc_family sk = Kernel.AF_INET ->
      exists r,
        submits (Runtime.trace_tcp_rcv IF_ARM bo m sk (Some s) pkts)
                pkts r /\
        Runtime.ihl_b r
        = 4 * (Kernel.load_u8 m (Kernel.head s + Kernel.network_header s)
               / 16) /\
        (Kernel.load_u8 m (Kernel.head s + Kernel.network_header s) / 16 = 4
         -> Runtime.ihl_b r = 16)) /\
  (forall pkts,
      exists r,
        submits (UnfairRuntime.trace_tcp_rcv IF_ARM bo m sk (Some s) pkts)
                pkts r /\
        UnfairRuntime.ihl_bytes r
        = 4 * (Kernel.load_u8 m (Kernel.head s + Kernel.network_header s)
               / 16) /\
        (Kernel.load_u8 m (Kernel.head s + Kernel.network_header s) / 16 = 4
         -> UnfairRuntime.ihl_bytes r = 16)).
Proof.
  intros Hframe.
  split; intros pkts.
  - intros Hfam.
    destruct (rt_accepts IF_ARM bo m sk s pkts Hfam Hframe) as [r Hr].
    destruct (rt_decoded IF_ARM bo m sk s pkts r Hr) as (_ & Ei & _).
    exists r. rewrite Ei. unfold decoded_ihl.
    repeat split; try assumption; lia.
  - destruct (un_accepts IF_ARM bo m sk s pkts Hframe) as [r Hr].
    destruct (un_decoded IF_ARM bo m sk s pkts r Hr) as (_ & Ei & _).
    exists r. rewrite Ei. unfold decoded_ihl.
    repeat split; try assumption; lia.
Qed.

Lemma ihl_under_if_arm_witness :
  (exists r,
      submits (Runtime.trace_tcp_rcv IF_ARM BIG_ENDIAN Samples.ack_mem
                 Samples.tcp4_sock (Some (Samples.ack_skb BIG_ENDIAN)) [])
              [] r /\
      Runtime.ihl_b r = 4 * 4 /\ (4 = 4 -> Runtime.ihl_b r = 16)) /\
  (exists r,
      submits (UnfairRuntime.trace_tcp_rcv IF_ARM BIG_ENDIAN
                 Samples.ack_mem Samples.tcp4_sock
                 (Some (Samples.ack_skb BIG_ENDIAN)) [])
              [] r /\
      UnfairRuntime.ihl_bytes r = 4 * 4 /\
      (4 = 4 -> UnfairRuntime.ihl_bytes r = 16)).
Proof.
  assert (Hframe : ipv4_tcp_frame BIG_ENDIAN Samples.ack_mem
                     (Samples.ack_skb BIG_ENDIAN))
    by (split; vm_compute; reflexivity).
  destruct (ihl_under_if_arm BIG_ENDIAN Samples.ack_mem
              Samples.tcp4_sock (Samples.ack_skb BIG_ENDIAN) Hframe)
    as [Hrt Hun].
  split.
  - exact (Hrt [] eq_refl).
  - exact (Hun []).
Defined.

(** X7: in a build that compiles the first arm, a frame that passes the
    filter yields a record whose TCP header length is 0, so that its payload
    length is the 32-bit difference of the total length and the IP header
    length alone: it counts the TCP header as payload. *)
Theorem thl_under_if_arm (bo : byte_order) (m : Kernel.kmem)
    (sk : Kernel.sock) (s : Kernel.sk_buff) :
  ipv4_tcp_frame bo m s ->
  (forall pkts,
      Kernel.skc_family sk = Kernel.AF_INET ->
      exists r,
        submits (Runtime.trace_tcp_rcv IF_ARM bo m sk (Some s) pkts)
                pkts r /\
        Runtime.thl_b r = 0 /\
        Runtime.payload_b r = u32 (Runtime.total_b r - Runtime.ihl_b r)) /\
  (forall pkts,
      exists r,
        submits (UnfairRuntime.trace_tcp_rcv IF_ARM bo m sk (Some s) pkts)
                pkts r /\
        UnfairRuntime.thl_bytes r = 0 /\
        UnfairRuntime.payload_bytes r
        = u32 (UnfairRuntime.total_bytes r - UnfairRuntime.ihl_bytes r)).
Proof.
  intros Hframe.
  split; intros pkts.
  - intros Hfam.
    destruct (rt_accepts IF_ARM bo m sk s pkts Hfam Hframe) as [r Hr].
    destruct (rt_decoded IF_ARM bo m sk s pkts r Hr) as (Et & Ei & Eh & Ep).
    exists r. rewrite Ep, Eh, Et, Ei. unfold decoded_thl.
    rewrite Z.sub_0_r. repeat split; try assumption.
    unfold u32. apply Z.mod_mod. lia.
  - destruct (un_accepts IF_ARM bo m sk s pkts Hframe) as [r Hr].
    destruct (un_decoded IF_ARM bo m sk s pkts r Hr) as (Et & Ei & Eh & Ep).
    exists r. rewrite Ep, Eh, Et, Ei. unfold decoded_thl.
    rewrite Z.sub_0_r. repeat split; try assumption.
    unfold u32. apply Z.mod_mod. lia.
Qed.

Lemma thl_under_if_arm_witness :
  (exists r,
      submits (Runtime.trace_tcp_rcv IF_ARM BIG_ENDIAN Samples.ack_mem
                 Samples.tcp4_sock (Some (Samples.ack_skb BIG_ENDIAN)) [])
              [] r /\
      Runtime.thl_b r = 0 /\
      Runtime.payload_b r = u32 (Runtime.total_b r - Runtime.ihl_b r)) /\
  (exists r,
      submits (UnfairRuntime.trace_tcp_rcv IF_ARM BIG_ENDIAN
                 Samples.ack_mem Samples.tcp4_sock
                 (Some (Samples.ack_skb BIG_ENDIAN)) [])
              [] r /\
      UnfairRuntime.thl_bytes r = 0 /\
      UnfairRuntime.payload_bytes r
      = u32 (UnfairRuntime.total_bytes r - UnfairRuntime.ihl_bytes r)).
Proof.
  assert (Hframe : ipv4_tcp_frame BIG_ENDIAN Samples.ack_mem
                     (Samples.ack_skb BIG_ENDIAN))
    by (split; vm_compute; reflexivity).
  destruct (thl_under_if_arm BIG_ENDIAN Samples.ack_mem
              Samples.tcp4_sock (Samples.ack_skb BIG_ENDIAN) Hframe)
    as [Hrt Hun].
  split.
  - exact (Hrt [] eq_refl).
  - exact (Hun []).
Defined.

(** X8: in a build that compiles the [#elif] arm, a frame that passes the
    filter yields a record whose TCP header length is four times the high
    nibble of the byte found 24 bytes into the TCP header (four 32-bit words
    past [ack_seq]). *)
Theorem thl_under_elif_arm (bo : byte_order) (m : Kernel.kmem)
    (sk : Kernel.sock) (s : Kernel.sk_buff) :
  ipv4_tcp_frame bo m s ->
  (forall pkts,
      Kernel.skc_family sk = Kernel.AF_INET ->
      exists r,
        submits (Runtime.trace_tcp_rcv ELIF_ARM bo m sk (Some s) pkts)
                pkts r /\
        Runtime.thl_b r
        = 4 * (Kernel.load_u8 m
                 (Kernel.head s + Kernel.transport_header s + 24) / 16)) /\
  (forall pkts,
      exists r,
        submits (UnfairRuntime.trace_tcp_rcv ELIF_ARM bo m sk (Some s) pkts)
                pkts r /\
        UnfairRuntime.thl_bytes r
        = 4 * (Kernel.load_u8 m
                 (Kernel.head s + Kernel.transport_header s + 24) / 16)).
Proof.
  intros Hframe.
  split; intros pkts.
  - intros Hfam.
    destruct (rt_accepts ELIF_ARM bo m sk s pkts Hfam Hframe) as [r Hr].
    destruct (rt_decoded ELIF_ARM bo m sk s pkts r Hr) as (_ & _ & Eh & _).
    exists r. split; [exact Hr | exact Eh].
  - destruct (un_accepts ELIF_ARM bo m sk s pkts Hframe) as [r Hr].
    destruct (un_decoded ELIF_ARM bo m sk s pkts r Hr) as (_ & _ & Eh & _).
    exists r. split; [exact Hr | exact Eh].
Qed.

Lemma thl_under_elif_arm_witness :
  wire_doff Samples.ack_mem (Samples.ack_skb LITTLE_ENDIAN) = 5 /\
  (exists r,
      submits (Runtime.trace_tcp_rcv ELIF_ARM LITTLE_ENDIAN Samples.ack_mem
                 Samples.tcp4_sock (Some (Samples.ack_skb LITTLE_ENDIAN)) [])
              [] r /\
      Runtime.thl_b r = 4 * 10) /\
  (exists r,
      submits (UnfairRuntime.trace_tcp_rcv ELIF_ARM LITTLE_ENDIAN
                 Samples.ack_mem Samples.tcp4_sock
                 (Some (Samples.ack_skb LITTLE_ENDIAN)) [])
              [] r /\
      UnfairRuntime.thl_bytes r = 4 * 10).
Proof.
  assert (Hframe : ipv4_tcp_frame LITTLE_ENDIAN Samples.ack_mem
                     (Samples.ack_skb LITTLE_ENDIAN))
    by (split; vm_compute; reflexivity).
  destruct (thl_under_elif_arm LITTLE_ENDIAN Samples.ack_mem
              Samples.tcp4_sock (Samples.ack_skb LITTLE_ENDIAN) Hframe)
    as [Hrt Hun].
  split; [reflexivity | split].
  - exact (Hrt [] eq_refl).
  - exact (Hun []).
Defined.

(** X9: in src/runtime the member [iv] takes the nibble that [ihl_b] does
    not. A frame that passes the filter, with a socket of family AF_INET,
    yields a record in which, under the first arm, [iv] is the IHL nibble of
    the frame and, under the [#elif] arm, its version nibble; either way the
    two members together determine the first byte of the IP header. *)
Theorem iv_is_the_other_nibble (arm : cpp_arm) (bo : byte_order)
    (m : Kernel.kmem) (sk : Kernel.sock) (s : Kernel.sk_buff)
    (pkts : Runtime.perf_output) :
  ipv4_tcp_frame bo m s ->
  Kernel.skc_family sk = Kernel.AF_INET ->
  exists r,
    submits (Runtime.trace_tcp_rcv arm bo m sk (Some s) pkts) pkts r /\
    match arm with
    | IF_ARM =>
        Runtime.iv r = wire_ihl m s /\
        4 * Runtime.ihl_b r + Runtime.iv r
        = Kernel.load_u8 m (Kernel.head s + Kernel.network_header s)
    | ELIF_ARM =>
        Runtime.iv r
        = Kernel.load_u8 m (Kernel.head s + Kernel.network_header s) / 16 /\
        64 * Runtime.iv r + Runtime.ihl_b r
        = 4 * Kernel.load_u8 m (Kernel.head s + Kernel.network_header s)
    end.
Proof.
  intros Hframe Hfam.
  destruct (rt_accepts arm bo m sk s pkts Hfam Hframe) as [r Hr].
  exists r. split; [exact Hr|].
  destruct (rt_decoded arm bo m sk s pkts r Hr) as (_ & Ei & _).
  pose proof (load_u8_range m (Kernel.head s + Kernel.network_header s))
    as Hf.
  pose proof (div16_range _ Hf) as Hhi.
  pose proof (mod16_range (Kernel.load_u8 m
                (Kernel.head s + Kernel.network_header s))) as Hlo.
  pose proof (Z.div_mod
                (Kernel.load_u8 m (Kernel.head s + Kernel.network_header s))
                16 ltac:(lia)) as Hdm.
  rewrite Ei. clear Ei. submitted Hr; fields.
  all: probe_addresses s.
  all: rewrite ?high_nibble, ?low_nibble by exact Hf.
  all: unfold u32; rewrite Z.mod_small by lia.
  all: unfold decoded_ihl, wire_ihl; lia.
Qed.

Lemma iv_is_the_other_nibble_witness :
  (exists r,
      submits (Runtime.trace_tcp_rcv ELIF_ARM LITTLE_ENDIAN Samples.ack_mem
                 Samples.tcp4_sock (Some (Samples.ack_skb LITTLE_ENDIAN)) [])
              [] r /\
      Runtime.iv r = 4 /\ 64 * Runtime.iv r + Runtime.ihl_b r = 4 * 0x45) /\
  (exists r,
      submits (Runtime.trace_tcp_rcv IF_ARM BIG_ENDIAN Samples.ack_mem
                 Samples.tcp4_sock (Some (Samples.ack_skb BIG_ENDIAN)) [])
              [] r /\
      Runtime.iv r = 5 /\ 4 * Runtime.ihl_b r + Runtime.iv r = 0x45).
Proof.
  split.
  - refine (iv_is_the_other_nibble ELIF_ARM LITTLE_ENDIAN Samples.ack_mem
              Samples.tcp4_sock (Samples.ack_skb LITTLE_ENDIAN) [] _ eq_refl).
    split; vm_compute; reflexivity.
  - refine (iv_is_the_other_nibble IF_ARM BIG_ENDIAN Samples.ack_mem
              Samples.tcp4_sock (Samples.ack_skb BIG_ENDIAN) [] _ eq_refl).
    split; vm_compute; reflexivity.
Defined.

(** X10: for a time stamp that is not negative, the capture time of a record
    is the time stamp divided by one million, rounded down: the number of
    whole milliseconds in it; and a frame that passes the filter does yield
    such a record. *)
Theorem time_us_counts_whole_milliseconds (arm : cpp_arm) (bo : byte_order)
    (m : Kernel.kmem) (sk : Kernel.sock) (s : Kernel.sk_buff) :
  0 <= Kernel.tstamp s < 2 ^ 63 ->
  (forall pkts r,
      submits (Runtime.trace_tcp_rcv arm bo m sk (Some s) pkts) pkts r ->
      Runtime.time_us r = Kernel.tstamp s / 1000000 /\
      1000000 * Runtime.time_us r <= Kernel.tstamp s
      < 1000000 * Runtime.time_us r + 1000000) /\
  (forall pkts r,
      submits (UnfairRuntime.trace_tcp_rcv arm bo m sk (Some s) pkts)
              pkts r ->
      UnfairRuntime.time_us r = Kernel.tstamp s / 1000000 /\
      1000000 * UnfairRuntime.time_us r <= Kernel.tstamp s
      < 1000000 * UnfairRuntime.time_us r + 1000000) /\
  (ipv4_tcp_frame bo m s ->
   (forall pkts,
       Kernel.skc_family sk = Kernel.AF_INET ->
       exists r,
         submits (Runtime.trace_tcp_rcv arm bo m sk (Some s) pkts) pkts r) /\
   (forall pkts,
       exists r,
         submits (UnfairRuntime.trace_tcp_rcv arm bo m sk (Some s) pkts)
                 pkts r)).
Proof.
  intros Ht.
  assert (Hu : u64 (Kernel.tstamp s) = Kernel.tstamp s)
    by (unfold u64; apply Z.mod_small; lia).
  split; [|split].
  - intros pkts r H. rewrite (rt_time_us arm bo m sk s pkts r H), Hu.
    split; [reflexivity | Z.div_mod_to_equations; lia].
  - intros pkts r H. rewrite (un_time_us arm bo m sk s pkts r H), Hu.
    split; [reflexivity | Z.div_mod_to_equations; lia].
  - intros Hframe. split; intros pkts.
    + intros Hfam. exact (rt_accepts arm bo m sk s pkts Hfam Hframe).
    + exact (un_accepts arm bo m sk s pkts Hframe).
Qed.

Lemma time_us_counts_whole_milliseconds_witness :
  (Runtime.time_us (Samples.ack_pkt_rt ELIF_ARM LITTLE_ENDIAN)
   = 1000000500 / 1000000 /\
   1000000 * Runtime.time_us (Samples.ack_pkt_rt ELIF_ARM LITTLE_ENDIAN)
   <= 1000000500
   < 1000000 * Runtime.time_us (Samples.ack_pkt_rt ELIF_ARM LITTLE_ENDIAN)
     + 1000000) /\
  (UnfairRuntime.time_us (Samples.ack_pkt_un ELIF_ARM LITTLE_ENDIAN)
   = 1000000500 / 1000000 /\
   1000000 * UnfairRuntime.time_us (Samples.ack_pkt_un ELIF_ARM LITTLE_ENDIAN)
   <= 1000000500
   < 1000000
     * UnfairRuntime.time_us (Samples.ack_pkt_un ELIF_ARM LITTLE_ENDIAN)
     + 1000000).
Proof.
  assert (Ht : 0 <= Kernel.tstamp (Samples.ack_skb LITTLE_ENDIAN) < 2 ^ 63)
    by (split; vm_compute; first [reflexivity | discriminate]).
  split.
  - exact (proj1 (time_us_counts_whole_milliseconds ELIF_ARM LITTLE_ENDIAN
                    Samples.ack_mem Samples.tcp4_sock
                    (Samples.ack_skb LITTLE_ENDIAN) Ht)
                 [] (Samples.ack_pkt_rt ELIF_ARM LITTLE_ENDIAN) eq_refl).
  - exact (proj1 (proj2 (time_us_counts_whole_milliseconds ELIF_ARM
                           LITTLE_ENDIAN Samples.ack_mem Samples.tcp4_sock
                           (Samples.ack_skb LITTLE_ENDIAN) Ht))
                 [] (Samples.ack_pkt_un ELIF_ARM LITTLE_ENDIAN) eq_refl).
Defined.

(** The address [a] is one of [reads s]. *)
Ltac in_reads :=
  cbv beta zeta delta [reads In];
  repeat first [ left; lia | right ].

(** Every load of [m] becomes the same load of [m']. *)
Ltac move_loads Hload m :=
  repeat match goal with
    | |- context [Kernel.load_u8 m ?a] =>
        rewrite (Hload a) by in_reads
    end.

(** Memory enters a call only through the bytes of [reads]. *)
Lemma rt_footprint (arm : cpp_arm) (bo : byte_order) (m m' : Kernel.kmem)
    (sk : Kernel.sock) (s : Kernel.sk_buff) (pkts : Runtime.perf_output) :
  agree_on (reads s) m m' ->
  Runtime.trace_tcp_rcv arm bo m sk (Some s) pkts
  = Runtime.trace_tcp_rcv arm bo m' sk (Some s) pkts.
Proof.
  intros Hag.
  assert (Hload : forall a, In a (reads s) ->
                            Kernel.load_u8 m a = Kernel.load_u8 m' a).
  { intros a Ha. unfold Kernel.load_u8. rewrite (Hag a Ha). reflexivity. }
  unfold Runtime.trace_tcp_rcv, Kernel.load_u32, Kernel.load_u16,
    Kernel.bpf_probe_read_u8, Kernel.ptr_add, Runtime.skb_to_iphdr,
    Runtime.skb_to_tcphdr, Kernel.iphdr.off_tos, Kernel.iphdr.off_tot_len,
    Kernel.iphdr.off_protocol, Kernel.iphdr.off_saddr,
    Kernel.iphdr.off_daddr, Kernel.iphdr.sizeof_tos,
    Kernel.tcphdr.off_source, Kernel.tcphdr.off_dest,
    Kernel.tcphdr.off_seq, Kernel.tcphdr.off_ack_seq,
    Kernel.tcphdr.sizeof_ack_seq.
  cbv zeta. destruct arm, bo; move_loads Hload m; reflexivity.
Qed.

Lemma un_footprint (arm : cpp_arm) (bo : byte_order) (m m' : Kernel.kmem)
    (sk : Kernel.sock) (s : Kernel.sk_buff)
    (pkts : UnfairRuntime.perf_output) :
  agree_on (reads s) m m' ->
  UnfairRuntime.trace_tcp_rcv arm bo m sk (Some s) pkts
  = UnfairRuntime.trace_tcp_rcv arm bo m' sk (Some s) pkts.
Proof.
  intros Hag.
  assert (Hload : forall a, In a (reads s) ->
                            Kernel.load_u8 m a = Kernel.load_u8 m' a).
  { intros a Ha. unfold Kernel.load_u8. rewrite (Hag a Ha). reflexivity. }
  unfold UnfairRuntime.trace_tcp_rcv, Kernel.load_u32, Kernel.load_u16,
    Kernel.bpf_probe_read_u8, Kernel.ptr_add, UnfairRuntime.skb_to_iphdr,
    UnfairRuntime.skb_to_tcphdr, Kernel.iphdr.off_tos,
    Kernel.iphdr.off_tot_len,
    Kernel.iphdr.off_protocol, Kernel.iphdr.off_saddr,
    Kernel.iphdr.off_daddr, Kernel.iphdr.sizeof_tos,
    Kernel.tcphdr.off_source, Kernel.tcphdr.off_dest,
    Kernel.tcphdr.off_seq, Kernel.tcphdr.off_ack_seq,
    Kernel.tcphdr.sizeof_ack_seq.
  cbv zeta. destruct arm, bo; move_loads Hload m; reflexivity.
Qed.

(** When the TCP header starts at least 20 bytes after the IP header, the
    data-offset byte is none of the bytes read. *)
Lemma doff_byte_not_read (m : Kernel.kmem) (s : Kernel.sk_buff) (v : Z) :
  Kernel.network_header s + 20 <= Kernel.transport_header s ->
  agree_on (reads s) m
    (mem_set m (Kernel.head s + Kernel.transport_header s + 12) v).
Proof.
  intros Hgap a Ha. unfold mem_set.
  destruct (Z.eqb_spec a (Kernel.head s + Kernel.transport_header s + 12))
    as [Heq | _]; [exfalso | reflexivity].
  cbv beta zeta delta [reads In] in Ha.
  repeat (destruct Ha as [<- | Ha]; [lia|]). destruct Ha.
Qed.

(** X12: the outcome of a call depends on memory only through the 21 bytes
    of [reads]: two memories that agree on them give the same result. These
    bytes lie within 20 bytes of the start of the IP header or within 25
    bytes of the start of the TCP header. When the TCP header starts at
    least 20 bytes after the IP header, the data-offset byte, 12 bytes into
    the TCP header, is not among them: whatever is written there, the call
    does the same. *)
Theorem handler_reads_only_its_footprint (arm : cpp_arm) (bo : byte_order)
    (m : Kernel.kmem) (sk : Kernel.sock) (s : Kernel.sk_buff) :
  (forall m',
      agree_on (reads s) m m' ->
      (forall pkts,
          Runtime.trace_tcp_rcv arm bo m sk (Some s) pkts
          = Runtime.trace_tcp_rcv arm bo m' sk (Some s) pkts) /\
      (forall pkts,
          UnfairRuntime.trace_tcp_rcv arm bo m sk (Some s) pkts
          = UnfairRuntime.trace_tcp_rcv arm bo m' sk (Some s) pkts)) /\
  (forall a,
      In a (reads s) ->
      0 <= a - (Kernel.head s + Kernel.network_header s) < 20 \/
      0 <= a - (Kernel.head s + Kernel.transport_header s) < 25) /\
  (Kernel.network_header s + 20 <= Kernel.transport_header s ->
   ~ In (Kernel.head s + Kernel.transport_header s + 12) (reads s) /\
   forall v,
     (forall pkts,
         Runtime.trace_tcp_rcv arm bo
           (mem_set m (Kernel.head s + Kernel.transport_header s + 12) v)
           sk (Some s) pkts
         = Runtime.trace_tcp_rcv arm bo m sk (Some s) pkts) /\
     (forall pkts,
         UnfairRuntime.trace_tcp_rcv arm bo
           (mem_set m (Kernel.head s + Kernel.transport_header s + 12) v)
           sk (Some s) pkts
         = UnfairRuntime.trace_tcp_rcv arm bo m sk (Some s) pkts)).
Proof.
  split; [|split].
  - intros m' Hag. split; intros pkts.
    + exact (rt_footprint arm bo m m' sk s pkts Hag).
    + exact (un_footprint arm bo m m' sk s pkts Hag).
  - intros a Ha. cbv beta zeta delta [reads In] in Ha.
    repeat (destruct Ha as [<- | Ha]; [lia|]). destruct Ha.
  - intros Hgap. split.
    + intros Ha. cbv beta zeta delta [reads In] in Ha.
      repeat (destruct Ha as [Ha | Ha]; [lia|]). destruct Ha.
    + intros v. split; intros pkts; symmetry.
      * exact (rt_footprint arm bo m _ sk s pkts
                 (doff_byte_not_read m s v Hgap)).
      * exact (un_footprint arm bo m _ sk s pkts
                 (doff_byte_not_read m s v Hgap)).
Qed.

Lemma handler_reads_only_its_footprint_witness :
  Samples.ack_mem 4142 <> Samples.ack_mem_doff8 4142 /\
  (Runtime.trace_tcp_rcv ELIF_ARM LITTLE_ENDIAN Samples.ack_mem
     Samples.tcp4_sock (Some (Samples.ack_skb LITTLE_ENDIAN)) []
   = Runtime.trace_tcp_rcv ELIF_ARM LITTLE_ENDIAN Samples.ack_mem_doff8
       Samples.tcp4_sock (Some (Samples.ack_skb LITTLE_ENDIAN)) [] /\
   UnfairRuntime.trace_tcp_rcv ELIF_ARM LITTLE_ENDIAN Samples.ack_mem
     Samples.tcp4_sock (Some (Samples.ack_skb LITTLE_ENDIAN)) []
   = UnfairRuntime.trace_tcp_rcv ELIF_ARM LITTLE_ENDIAN Samples.ack_mem_doff8
       Samples.tcp4_sock (Some (Samples.ack_skb LITTLE_ENDIAN)) []) /\
  (Runtime.trace_tcp_rcv ELIF_ARM LITTLE_ENDIAN
     (mem_set Samples.ack_mem 4142 0x80)
     Samples.tcp4_sock (Some (Samples.ack_skb LITTLE_ENDIAN)) []
   = Runtime.trace_tcp_rcv ELIF_ARM LITTLE_ENDIAN Samples.ack_mem
       Samples.tcp4_sock (Some (Samples.ack_skb LITTLE_ENDIAN)) [] /\
   UnfairRuntime.trace_tcp_rcv ELIF_ARM LITTLE_ENDIAN
     (mem_set Samples.ack_mem 4142 0x80)
     Samples.tcp4_sock (Some (Samples.ack_skb LITTLE_ENDIAN)) []
   = UnfairRuntime.trace_tcp_rcv ELIF_ARM LITTLE_ENDIAN Samples.ack_mem
       Samples.tcp4_sock (Some (Samples.ack_skb LITTLE_ENDIAN)) []).
Proof.
  assert (Hag : agree_on (reads (Samples.ack_skb LITTLE_ENDIAN))
                  Samples.ack_mem Samples.ack_mem_doff8).
  { intros a Ha. cbv beta zeta delta [reads In] in Ha.
    repeat (destruct Ha as [<- | Ha]; [vm_compute; reflexivity|]).
    destruct Ha. }
  assert (Hgap : Kernel.network_header (Samples.ack_skb LITTLE_ENDIAN) + 20
                 <= Kernel.transport_header (Samples.ack_skb LITTLE_ENDIAN))
    by (vm_compute; discriminate).
  destruct (handler_reads_only_its_footprint ELIF_ARM LITTLE_ENDIAN
              Samples.ack_mem Samples.tcp4_sock
              (Samples.ack_skb LITTLE_ENDIAN)) as (Hsame & _ & Hdoff).
  destruct (Hsame Samples.ack_mem_doff8 Hag) as [Hrt Hun].
  destruct (Hdoff Hgap) as [_ Hset].
  destruct (Hset 0x80) as [Hrt' Hun'].
  split; [vm_compute; discriminate | split; split].
  - apply Hrt.
  - apply Hun.
  - apply Hrt'.
  - apply Hun'.
Defined.

(** X13: for a socket of family AF_INET the two source files do the same
    thing: src/unfair/runtime submits the record that src/runtime submits,
    with [iv] replaced by a zero [padding], and submits nothing when
    src/runtime submits nothing. For any other family src/runtime submits
    nothing. *)
Theorem unfair_runtime_agrees_with_runtime (arm : cpp_arm) (bo : byte_order)
    (m : Kernel.kmem) (sk : Kernel.sock) (skb : option Kernel.sk_buff)
    (pkts : Runtime.perf_output) :
  (Kernel.skc_family sk = Kernel.AF_INET ->
   UnfairRuntime.trace_tcp_rcv arm bo m sk skb (map to_unfair pkts)
   = (fst (Runtime.trace_tcp_rcv arm bo m sk skb pkts),
      map to_unfair (snd (Runtime.trace_tcp_rcv arm bo m sk skb pkts)))) /\
  (Kernel.skc_family sk <> Kernel.AF_INET ->
   Runtime.trace_tcp_rcv arm bo m sk skb pkts = (0, pkts)).
Proof.
  split; intros Hfam.
  - unfold UnfairRuntime.trace_tcp_rcv, Runtime.trace_tcp_rcv,
      UnfairRuntime.perf_submit, Runtime.perf_submit,
      UnfairRuntime.skb_to_iphdr, Runtime.skb_to_iphdr,
      UnfairRuntime.skb_to_tcphdr, Runtime.skb_to_tcphdr.
    cbv zeta. rewrite Hfam, Z.eqb_refl. cbn [negb orb].
    destruct skb as [s|]; cbn [Kernel.is_null]; [|reflexivity].
    destruct (negb (Kernel.protocol s =? _)); [reflexivity|].
    destruct (negb (Kernel.load_u8 m _ =? _)); [reflexivity|].
    destruct arm; cbn [fst snd]; rewrite map_app; reflexivity.
  - unfold Runtime.trace_tcp_rcv. apply Z.eqb_neq in Hfam.
    rewrite Hfam. reflexivity.
Qed.

Lemma unfair_runtime_agrees_with_runtime_witness :
  UnfairRuntime.trace_tcp_rcv ELIF_ARM LITTLE_ENDIAN Samples.ack_mem
    Samples.tcp4_sock (Some (Samples.ack_skb LITTLE_ENDIAN))
    (map to_unfair [Samples.short_pkt_rt ELIF_ARM LITTLE_ENDIAN])
  = (0, map to_unfair [Samples.short_pkt_rt ELIF_ARM LITTLE_ENDIAN;
                       Samples.ack_pkt_rt ELIF_ARM LITTLE_ENDIAN]) /\
  Runtime.trace_tcp_rcv ELIF_ARM LITTLE_ENDIAN Samples.ack_mem
    Samples.tcp6_sock (Some (Samples.ack_skb LITTLE_ENDIAN))
    [Samples.short_pkt_rt ELIF_ARM LITTLE_ENDIAN]
  = (0, [Samples.short_pkt_rt ELIF_ARM LITTLE_ENDIAN]).
Proof.
  split.
  - exact (proj1 (unfair_runtime_agrees_with_runtime ELIF_ARM LITTLE_ENDIAN
                    Samples.ack_mem Samples.tcp4_sock
                    (Some (Samples.ack_skb LITTLE_ENDIAN))
                    [Samples.short_pkt_rt ELIF_ARM LITTLE_ENDIAN]) eq_refl).
  - apply (proj2 (unfair_runtime_agrees_with_runtime ELIF_ARM LITTLE_ENDIAN
                    Samples.ack_mem Samples.tcp6_sock
                    (Some (Samples.ack_skb LITTLE_ENDIAN))
                    [Samples.short_pkt_rt ELIF_ARM LITTLE_ENDIAN])).
    vm_compute. discriminate.
Defined.

(** X14: the IPv4 test of the handlers is a test of the wire: for a 16-bit
    [protocol] member, a record is submitted only if the member, converted
    from network order, is ETH_P_IP, and on either kind of host a frame for
    which it is not is passed over. *)
Theorem ipv4_test_is_on_network_order (arm : cpp_arm) (bo : byte_order)
    (m : Kernel.kmem) (sk : Kernel.sock) (s : Kernel.sk_buff)
    (pkts : Runtime.perf_output) (pkts' : UnfairRuntime.perf_output) :
  0 <= Kernel.protocol s < 2 ^ 16 ->
  (Kernel.protocol s = Kernel.htons bo Kernel.ETH_P_IP <->
   Kernel.ntohs bo (Kernel.protocol s) = Kernel.ETH_P_IP) /\
  (Kernel.ntohs bo (Kernel.protocol s) <> Kernel.ETH_P_IP ->
   Runtime.trace_tcp_rcv arm bo m sk (Some s) pkts = (0, pkts) /\
   UnfairRuntime.trace_tcp_rcv arm bo m sk (Some s) pkts' = (0, pkts')).
Proof.
  intros Hp.
  assert (Hiff : Kernel.protocol s = Kernel.htons bo Kernel.ETH_P_IP <->
                 Kernel.ntohs bo (Kernel.protocol s) = Kernel.ETH_P_IP).
  { destruct bo; unfold Kernel.htons, Kernel.ntohs; [|tauto].
    split; intros H.
    - rewrite H. vm_compute. reflexivity.
    - rewrite <- (swab16_involutive (Kernel.protocol s) Hp), H. reflexivity. }
  split; [exact Hiff|].
  intros Hne.
  assert (Hneq : Kernel.protocol s <> Kernel.htons bo Kernel.ETH_P_IP)
    by (intros H; apply Hne, Hiff, H).
  apply Z.eqb_neq in Hneq.
  unfold Runtime.trace_tcp_rcv, UnfairRuntime.trace_tcp_rcv.
  cbn [Kernel.is_null]. rewrite Hneq. cbn [negb].
  split; [destruct (negb _ || false)|]; reflexivity.
Qed.

Lemma ipv4_test_is_on_network_order_witness :
  Kernel.ntohs LITTLE_ENDIAN (Kernel.protocol (Samples.ack_skb BIG_ENDIAN))
  <> Kernel.ETH_P_IP /\
  Runtime.trace_tcp_rcv ELIF_ARM LITTLE_ENDIAN Samples.ack_mem
    Samples.tcp4_sock (Some (Samples.ack_skb BIG_ENDIAN)) [] = (0, []) /\
  UnfairRuntime.trace_tcp_rcv ELIF_ARM LITTLE_ENDIAN Samples.ack_mem
    Samples.tcp4_sock (Some (Samples.ack_skb BIG_ENDIAN)) [] = (0, []).
Proof.
  assert (Hp : 0 <= Kernel.protocol (Samples.ack_skb BIG_ENDIAN) < 2 ^ 16)
    by (split; vm_compute; first [reflexivity | discriminate]).
  assert (Hne : Kernel.ntohs LITTLE_ENDIAN
                  (Kernel.protocol (Samples.ack_skb BIG_ENDIAN))
                <> Kernel.ETH_P_IP)
    by (vm_compute; discriminate).
  split; [exact Hne|].
  exact (proj2 (ipv4_test_is_on_network_order ELIF_ARM LITTLE_ENDIAN
                  Samples.ack_mem Samples.tcp4_sock
                  (Samples.ack_skb BIG_ENDIAN) [] [] Hp)
               Hne).
Defined.
